(** * Career companion: scoring, content selection and rendering

    A shallow embedding of the match scorer ([_calculate_match_score],
    [process_scraped_job] in [scrape_pending_jobs.py] and
    [add_new_linkedin_jobs.py]), of the connection finder
    ([find_connections] in [agents/personal_context_manager.py]), of the
    kit parser's selectors ([get_variant_for_role], [get_company_variant],
    [select_achievements] in [agents/application_kit_parser.py]) and of
    the renderer ([render_resume], [render_cover_letter] in
    [agents/enhanced_template_engine.py]).

    Python [float] is IEEE 754 binary64 and is modelled by the kernel's
    primitive floats, so every sum and comparison below rounds exactly as
    the interpreter does.  Python [str] is modelled by [string] (a sequence
    of bytes, non-ASCII text in UTF-8); [lower] folds the ASCII letters,
    and the keyword tables hold no other letters.  Python [int] is [Z] where a
    negative value is meaningful (slice bounds, [str.find]) and [nat] for
    counters that only grow from zero. *)

From Stdlib Require Import Floats ZArith Bool Arith Lia.
From Stdlib Require Import Ascii String List Permutation Sorted.
Import ListNotations.

Set Warnings "-inexact-float".
Set Implicit Arguments.

Open Scope string_scope.
Open Scope list_scope.

(* ================================================================= *)
(** ** Python built-ins used by the program *)

Module Py.

(** [c.lower()] on one ASCII character. *)
Definition lower_ascii (c : ascii) : ascii :=
  let n := nat_of_ascii c in
  if (65 <=? n)%nat && (n <=? 90)%nat then ascii_of_nat (n + 32) else c.

(** [s.lower()]. *)
Fixpoint lower (s : string) : string :=
  match s with
  | EmptyString => EmptyString
  | String c s' => String (lower_ascii c) (lower s')
  end.

(** [needle in hay] on strings: [needle] occurs as a substring. *)
Fixpoint str_in (needle hay : string) : bool :=
  String.prefix needle hay
  || match hay with
     | EmptyString => false
     | String _ hay' => str_in needle hay'
     end.

(** [any(p(x) for x in xs)]. *)
Definition any {A} (p : A -> bool) (xs : list A) : bool := existsb p xs.

(** [sum(1 for x in xs if p(x))]. *)
Definition count_if {A} (p : A -> bool) (xs : list A) : nat :=
  List.length (filter p xs).

(** [d.get(k, default)] when the entry for [k] is modelled as an
    optional field. *)
Definition get {A} (field : option A) (default : A) : A :=
  match field with
  | Some v => v
  | None => default
  end.

(** [min(a, b)] on floats: the first argument unless the second is
    strictly smaller. *)
Definition min (a b : float) : float :=
  if (b <? a)%float then b else a.

(** [xs[:n]] for any integer [n]: a negative bound counts from the end. *)
Definition slice_to {A} (n : Z) (xs : list A) : list A :=
  if (0 <=? n)%Z then firstn (Z.to_nat n) xs
  else firstn (List.length xs - Z.to_nat (- n)) xs.

Section Sort.
Variable A : Type.
Variable key : A -> nat.

(** One step of a stable descending insertion: [x], which preceded every
    element of [l] in the input, goes in front of the first element whose
    key is not larger than its own. *)
Fixpoint insert_desc (x : A) (l : list A) : list A :=
  match l with
  | [] => [x]
  | y :: l' =>
      if (key x <? key y)%nat then y :: insert_desc x l'
      else x :: y :: l'
  end.

(** [xs.sort(key=key, reverse=True)]: the list ordered by decreasing
    key, elements of equal key in their input order ([list.sort] is
    stable, and stays so under [reverse=True]). *)
Fixpoint sort_reverse (l : list A) : list A :=
  match l with
  | [] => []
  | x :: l' => insert_desc x (sort_reverse l')
  end.
End Sort.

(** [sep.join(xs)]. *)
Fixpoint join (sep : string) (xs : list string) : string :=
  match xs with
  | [] => ""
  | [x] => x
  | x :: xs' => (x ++ sep ++ join sep xs')%string
  end.

(** [s[n:]] for [n >= 0]. *)
Fixpoint drop (n : nat) (s : string) : string :=
  match n, s with
  | O, _ => s
  | S _, EmptyString => EmptyString
  | S n', String _ s' => drop n' s'
  end.

(** [s[:n]] for [n >= 0]. *)
Fixpoint take (n : nat) (s : string) : string :=
  match n, s with
  | O, _ => EmptyString
  | S _, EmptyString => EmptyString
  | S n', String c s' => String c (take n' s')
  end.

(** Position of the first occurrence of [sub] in [s], counted from
    [pos], the offset of [s] in the whole string. *)
Fixpoint find_at (sub s : string) (pos : nat) : option nat :=
  if String.prefix sub s then Some pos
  else match s with
       | EmptyString => None
       | String _ s' => find_at sub s' (S pos)
       end.

(** [s.find(sub, start)]: the lowest index at or after [start] where [sub]
    occurs, [-1] when there is none; a negative [start] counts from the
    end and is clamped at zero. *)
Definition find (s sub : string) (start : Z) : Z :=
  let len := Z.of_nat (String.length s) in
  let start := if (start <? 0)%Z then Z.max 0 (start + len) else start in
  if (len <? start)%Z then (-1)%Z
  else match find_at sub (drop (Z.to_nat start) s) (Z.to_nat start) with
       | Some i => Z.of_nat i
       | None => (-1)%Z
       end.

(** [s.replace(old, new)] for a non-empty [old]: every occurrence, left to
    right, without overlap.  [skip] counts the characters of an occurrence
    already replaced that are still to be passed over. *)
Fixpoint replace_from (old new : string) (skip : nat) (s : string) : string :=
  match s with
  | EmptyString => EmptyString
  | String c s' =>
      match skip with
      | S k => replace_from old new k s'
      | O =>
          if String.prefix old s
          then (new ++ replace_from old new (String.length old - 1) s')%string
          else String c (replace_from old new 0 s')
      end
  end.

Definition replace (s old new : string) : string :=
  replace_from old new 0 s.

End Py.

(* ================================================================= *)
(** ** Personal context manager ([agents/personal_context_manager.py]) *)

(** One value of the [self.experiences] table. *)
Record Experience := {
  exp_description : string;
  exp_metrics : string;
  relevance_keywords : list string;
  companies : option (list string);
  talking_point : string
}.

(** An entry appended to [connections['relevant_experiences']]. *)
Record RelevantExperience := {
  re_type : string;
  re_description : string;
  re_metrics : string;
  re_talking_point : string;
  relevance_score : nat
}.

(** The part of the [connections] dictionary the scorer reads.  The other
    keys ([applicable_projects], [shared_values], ...) are filled after
    [relevant_experiences] has its final value and never feed back into it. *)
Record Connections := {
  relevant_experiences : list RelevantExperience
}.

(** The manager object: [self.experiences], a dictionary iterated in
    insertion order. *)
Record PersonalContextManager := {
  experiences : list (string * Experience)
}.

(** The table built by [PersonalContextManager.__init__]. *)
Definition default_experiences : list (string * Experience) :=
  [ ("gaming_retention",
     {| exp_description := "Scaled e-grocery to 20K+ users with gamified engagement achieving 70% cohort retention";
        exp_metrics := "<$10 CAC, LTV >$1,000";
        relevance_keywords := ["gaming"; "retention"; "engagement"; "monetization"; "economy"];
        companies := Some ["Scopely"; "Epic Games"; "Roblox"; "Unity"];
        talking_point := "I understand the delicate balance of engagement and monetization from scaling Subziwalla with gamified retention mechanics" |});
    ("ai_transformation",
     {| exp_description := "Reduced PM overhead by 80% through multi-agent AI systems at [CURRENT_COMPANY]";
        exp_metrics := "Prevented $400K churn, identified $6M ARR opportunities";
        relevance_keywords := ["ai"; "llm"; "genai"; "automation"; "agent"; "ml"];
        companies := Some ["OpenAI"; "Anthropic"; "Meta"; "Google"; "Microsoft"];
        talking_point := "Built production multi-agent systems achieving 80% efficiency gains with evaluation frameworks and guardrails" |});
    ("platform_building",
     {| exp_description := "Architected reusable LLM platform with 50+ prompt templates and evaluation harnesses";
        exp_metrics := "Cut prototype cycles from days to hours";
        relevance_keywords := ["platform"; "infrastructure"; "developer"; "api"; "framework"];
        companies := Some ["ClickUp"; "Stripe"; "Twilio"; "Datadog"];
        talking_point := "I build platforms that enable other teams to ship faster - like our prompt library that cut prototyping from days to hours" |});
    ("edtech_learning",
     {| exp_description := "Parent perspective on EdTech + AI-assisted learning systems";
        exp_metrics := "27% productivity lift across teams through AI enablement";
        relevance_keywords := ["education"; "learning"; "edtech"; "training"; "curriculum"];
        companies := Some ["Committee for Children"; "Nerdy"; "Duolingo"; "Coursera"];
        talking_point := "As a parent using EdTech tools daily, I bring both user empathy and technical expertise to learning products" |});
    ("b2b_saas",
     {| exp_description := "Scaled PropTech SaaS from concept to enterprise pilots as CPO at [PREVIOUS_COMPANY]";
        exp_metrics := "12% MoM active-use growth during rollout";
        relevance_keywords := ["b2b"; "saas"; "enterprise"; "sales"; "gtm"];
        companies := Some ["Salesforce"; "HubSpot"; "ClickUp"; "Monday.com"];
        talking_point := "Led 0→1 to enterprise pilots, understanding both startup velocity and enterprise governance needs" |});
    ("healthcare_regulated",
     {| exp_description := "Navigated regulated environments with HIPAA compliance and security reviews";
        exp_metrics := "Maintained velocity while meeting compliance requirements";
        relevance_keywords := ["healthcare"; "hipaa"; "compliance"; "regulation"; "security"];
        companies := Some ["Bicycle Health"; "Oscar Health"; "One Medical"];
        talking_point := "I've successfully balanced innovation speed with regulatory compliance in sensitive data environments" |});
    ("martech_growth",
     {| exp_description := "Achieved 40% targeted-campaign conversion with personalization at Subziwalla";
        exp_metrics := "Built retention programs yielding 70% cohort retention";
        relevance_keywords := ["marketing"; "martech"; "growth"; "conversion"; "personalization"];
        companies := Some ["NBCUniversal"; "Adobe"; "Mailchimp"; "Klaviyo"];
        talking_point := "I've built personalization engines that achieved 40% conversion rates through data-driven segmentation" |});
    ("data_products",
     {| exp_description := "Built data ingestion pipelines with anomaly detection and entity resolution";
        exp_metrics := "Reduced downstream incidents by 40%";
        relevance_keywords := ["data"; "analytics"; "pipeline"; "quality"; "ingestion"];
        companies := Some ["Databricks"; "Snowflake"; "Palantir"; "Tableau"];
        talking_point := "Implemented data health SLAs and anomaly detection reducing incidents by 40%" |}) ].

Definition default_context_manager : PersonalContextManager :=
  {| experiences := default_experiences |}.

(** [f"{job_title} {job_description} {company_name}".lower()]. *)
Definition job_text (company_name job_title job_description : string) : string :=
  Py.lower (job_title ++ " " ++ job_description ++ " " ++ company_name)%string.

(** Modelled from the spec: the head of the generator expression on line
    192 of the manager, which reaches us as
    [sum([STREET_ADDRESS] in experience['relevance_keywords'] if keyword in job_text)].
    The spec counts the record's relevance keywords found as substrings in
    the job text, and what is left of the line says the same: the
    repository's own [scripts/anonymize.py] replaces, ignoring case, a
    digit followed by words that end in "rd", and so swallowed
    "1 for keyword".  The expression is
    [sum(1 for keyword in experience['relevance_keywords'] if keyword in job_text)]. *)
Definition keyword_hits (experience : Experience) (text : string) : nat :=
  Py.count_if (fun keyword => Py.str_in keyword text) (relevance_keywords experience).

(** [any(comp.lower() in company_name.lower() for comp in experience.get('companies', []))]. *)
Definition company_match (experience : Experience) (company_name : string) : bool :=
  Py.any (fun comp => Py.str_in (Py.lower comp) (Py.lower company_name))
         (Py.get (companies experience) []).

(** The body of the loop over [self.experiences.items()]: the list being
    built is threaded through, a kept record is appended at its end. *)
Definition match_experience (company_name text : string)
    (acc : list RelevantExperience) (item : string * Experience)
    : list RelevantExperience :=
  let '(exp_key, experience) := item in
  let score := keyword_hits experience text in
  let cm := company_match experience company_name in
  if (0 <? score)%nat || cm then
    acc ++ [ {| re_type := exp_key;
                re_description := exp_description experience;
                re_metrics := exp_metrics experience;
                re_talking_point := talking_point experience;
                relevance_score := score + (if cm then 2 else 0) |} ]
  else acc.

(** [find_connections], as far as [relevant_experiences] goes: collect,
    sort by decreasing relevance, keep the first three. *)
Definition find_connections (self : PersonalContextManager)
    (company_name job_title job_description : string) : Connections :=
  let text := job_text company_name job_title job_description in
  let collected :=
    fold_left (match_experience company_name text) (experiences self) [] in
  let sorted := Py.sort_reverse relevance_score collected in
  {| relevant_experiences := Py.slice_to 3 sorted |}.

(* ================================================================= *)
(** ** Scorer ([scrape_pending_jobs.py], [add_new_linkedin_jobs.py]) *)

Inductive Priority := HIGH | MEDIUM | LOW.

(** The job dictionary: a key that may be missing is an optional field. *)
Record Job := {
  job_title : option string;
  job_company : option string;
  job_seniority_level : option string;
  job_required_experience : option string;
  job_description : option string;
  job_location : option string;
  job_workplace_type : option string;
  job_personal_connections : option Connections;
  job_match_score : option float;
  job_priority : option Priority
}.

Module Weights.
Open Scope float_scope.
Definition title_match : float := 0.25.
Definition seniority_match : float := 0.20.
Definition technical_match : float := 0.25.
Definition location_match : float := 0.15.
Definition personal_connection : float := 0.15.
End Weights.

Definition ai_keywords : list string :=
  ["ai"; "artificial intelligence"; "machine learning"; "llm";
   "genai"; "generative"; "nlp"; "deep learning"].

(** Modelled from the spec: the generator expression on line 135
    ([scrape_pending_jobs.py]; 134 in [add_new_linkedin_jobs.py]), which
    reaches us as [ai_count = sum([STREET_ADDRESS] in desc)], mangled by the
    same anonymizer rule.  The spec counts the keywords of the list that
    occur as substrings in the lowercased description; the expression is
    [sum(1 for keyword in ai_keywords if keyword in desc)]. *)
Definition ai_count (desc : string) : nat :=
  Py.count_if (fun keyword => Py.str_in keyword desc) ai_keywords.

Section ScoreBlocks.
Open Scope float_scope.
Variable job : Job.

Definition title_of : string := Py.lower (Py.get (job_title job) "").

(** Lines 110-115: the two independent title tests. *)
Definition title_block (score : float) : float :=
  let title := title_of in
  let score :=
    if Py.str_in "product manager" title
    then score + Weights.title_match * 0.7 else score in
  if Py.any (fun term => Py.str_in term title) ["senior"; "staff"; "principal"; "lead"]
  then score + Weights.title_match * 0.3 else score.

(** The three tests of the seniority [if]/[elif] chain, lines 121-126. *)
Definition senior_rule : bool :=
  let seniority := Py.lower (Py.get (job_seniority_level job) "") in
  Py.str_in "senior" seniority || Py.str_in "senior" title_of.

Definition mid_rule : bool :=
  let seniority := Py.lower (Py.get (job_seniority_level job) "") in
  let experience := Py.lower (Py.get (job_required_experience job) "") in
  Py.str_in "mid" seniority || Py.str_in "5" experience || Py.str_in "7" experience.

Definition director_rule : bool :=
  Py.str_in "director" title_of || Py.str_in "principal" title_of.

Definition seniority_block (score : float) : float :=
  if senior_rule then score + Weights.seniority_match * 0.8
  else if mid_rule then score + Weights.seniority_match * 1.0
  else if director_rule then score + Weights.seniority_match * 0.6
  else score.

(** Lines 128-139. *)
Definition technical_block (score : float) : float :=
  let desc := Py.lower (Py.get (job_description job) "") in
  let n := ai_count desc in
  if (2 <=? n)%nat then score + Weights.technical_match
  else if (1 <=? n)%nat then score + Weights.technical_match * 0.7
  else score.

(** Lines 141-150. *)
Definition location_block (score : float) : float :=
  let location := Py.lower (Py.get (job_location job) "") in
  let workplace := Py.lower (Py.get (job_workplace_type job) "") in
  if Py.str_in "remote" location || Py.str_in "remote" workplace
  then score + Weights.location_match
  else if Py.str_in "new york" location || Py.str_in "nyc" location
          || Py.str_in "ny," location
  then score + Weights.location_match * 0.8
  else if Py.str_in "hybrid" workplace
  then score + Weights.location_match * 0.6
  else score.

(** Lines 152-155: a non-empty [relevant_experiences] list is truthy. *)
Definition connection_block (score : float) : float :=
  let connections :=
    Py.get (job_personal_connections job) {| relevant_experiences := [] |} in
  match relevant_experiences connections with
  | [] => score
  | _ :: _ => score + Weights.personal_connection
  end.

(** [_calculate_match_score]: the running [score] goes through the five
    blocks in source order and is capped by [min(score, 1.0)]. *)
Definition calculate_match_score : float :=
  let score := 0.0 in
  let score := title_block score in
  let score := seniority_block score in
  let score := technical_block score in
  let score := location_block score in
  let score := connection_block score in
  Py.min score 1.0.
End ScoreBlocks.

(** Lines 87-92 of [process_scraped_job] (76-81 in the other script). *)
Definition priority_of (match_score : float) : Priority :=
  if (0.70 <=? match_score)%float then HIGH
  else if (0.50 <=? match_score)%float then MEDIUM
  else LOW.

(** [scraped_data['personal_connections'] = personal_connections]. *)
Definition set_personal_connections (job : Job) (c : Connections) : Job :=
  {| job_title := job_title job;
     job_company := job_company job;
     job_seniority_level := job_seniority_level job;
     job_required_experience := job_required_experience job;
     job_description := job_description job;
     job_location := job_location job;
     job_workplace_type := job_workplace_type job;
     job_personal_connections := Some c;
     job_match_score := job_match_score job;
     job_priority := job_priority job |}.

(** [scraped_data['match_score'] = s] followed by
    [scraped_data['priority'] = p]. *)
Definition set_score_and_priority (job : Job) (s : float) (p : Priority) : Job :=
  {| job_title := job_title job;
     job_company := job_company job;
     job_seniority_level := job_seniority_level job;
     job_required_experience := job_required_experience job;
     job_description := job_description job;
     job_location := job_location job;
     job_workplace_type := job_workplace_type job;
     job_personal_connections := job_personal_connections job;
     job_match_score := Some s;
     job_priority := Some p |}.

(** [process_scraped_job] on a job whose scrape succeeded: the connections
    are looked up and stored, then the score, then the priority.  (The
    company research stored under [company_research] is a network call
    whose result no later step of this function reads.) *)
Definition process_scraped_job (cm : PersonalContextManager) (scraped_data : Job) : Job :=
  let personal_connections :=
    find_connections cm
      (Py.get (job_company scraped_data) "")
      (Py.get (job_title scraped_data) "")
      (Py.get (job_description scraped_data) "") in
  let scraped_data := set_personal_connections scraped_data personal_connections in
  let match_score := calculate_match_score scraped_data in
  set_score_and_priority scraped_data match_score (priority_of match_score).

(* ================================================================= *)
(** ** Application kit parser ([agents/application_kit_parser.py]) *)

(** The [header] dictionary of a kit. *)
Record Header := {
  h_name : option string;
  h_location : option string;
  h_phone : option string;
  h_email : option string;
  h_linkedin : option string;
  h_title : option string
}.

Definition empty_header : Header :=
  {| h_name := None; h_location := None; h_phone := None;
     h_email := None; h_linkedin := None; h_title := None |}.

(** A company-specific block of [role_variants]. *)
Record Variant := {
  role : option string;
  v_summary : option string;
  top_bullets : option (list string)
}.

(** An entry of a kit's [experience] list; only the director kit's entries
    carry a [scope]. *)
Record KitExperience := {
  ke_company : string;
  ke_title : string;
  ke_scope : option string;
  ke_dates : string;
  ke_bullets : list string
}.

(** A parsed kit.  Every key is optional: a kit whose source file is missing
    is the empty dictionary, and the two kits do not share all their keys.
    Dictionaries are association lists in insertion order. *)
Record Kit := {
  header : option Header;
  summary : option string;
  executive_summary : option (list string);
  portfolio_outcomes : option (list string);
  signature_outcomes : option (list string);
  core_capabilities : option (list (string * string));
  core_skills : option (list (string * string));
  experience : option (list KitExperience);
  education : option string;
  speaking_media : option (list string);
  selected_projects : option (list string);
  director_keywords : option string;
  ats_keywords : option string;
  role_variants : option (list (string * Variant));
  achievements_bank : option (list string);
  cover_letter_template : option string;
  cover_letter_intros : option (list (string * string))
}.

Definition empty_kit : Kit :=
  {| header := None; summary := None; executive_summary := None;
     portfolio_outcomes := None; signature_outcomes := None;
     core_capabilities := None; core_skills := None; experience := None;
     education := None; speaking_media := None; selected_projects := None;
     director_keywords := None; ats_keywords := None; role_variants := None;
     achievements_bank := None; cover_letter_template := None;
     cover_letter_intros := None |}.

(** The parser object after [__init__]. *)
Record ApplicationKitParser := {
  senior_kit : Kit;
  director_kit : Kit
}.

(** [d.get(k)] on a dictionary kept as an association list. *)
Fixpoint dict_get {V} (d : list (string * V)) (k : string) : option V :=
  match d with
  | [] => None
  | (k', v) :: d' => if String.eqb k' k then Some v else dict_get d' k
  end.

Definition director_indicators : list string :=
  ["director"; "principal"; "staff"; "head of"; "vp"; "vice president"].

(** [get_variant_for_role]; the [company] argument is never read. *)
Definition get_variant_for_role (job_title : string) : string :=
  let title_lower := Py.lower job_title in
  if Py.any (fun indicator => Py.str_in indicator title_lower) director_indicators
  then "director"
  else "senior".

(** The [if]/[elif] chain of [get_company_variant] (and of the intro lookup
    in [render_cover_letter]): the first key found in the lowercased
    company name. *)
Definition company_key (company : string) : option string :=
  let company_lower := Py.lower company in
  if Py.str_in "sparkplug" company_lower then Some "sparkplug"
  else if Py.str_in "zillow" company_lower then Some "zillow"
  else if Py.str_in "crowdstrike" company_lower then Some "crowdstrike"
  else if Py.str_in "nextera" company_lower then Some "nextera"
  else None.

(** [get_company_variant]: always read from the senior kit. *)
Definition get_company_variant (self : ApplicationKitParser) (company : string)
    : option Variant :=
  match company_key company with
  | Some k => dict_get (Py.get (role_variants (senior_kit self)) []) k
  | None => None
  end.

Definition keyword_mapping : list (string * list string) :=
  [ ("automation", ["multi‑agent"; "reduced PM busywork"; "prototype cycle"]);
    ("revenue", ["$6M ARR"; "$400K"; "churn"; "retention"]);
    ("data", ["data‑health"; "anomaly detection"; "entity resolution"]);
    ("platform", ["LLM experimentation"; "notebook"; "guardrails"]);
    ("scale", ["20,000+ users"; "CAC"; "LTV"]);
    ("governance", ["responsible‑AI"; "audit trails"; "Security/Legal"]) ].

(** Modelled from the spec: the start of the scoring loops of
    [select_achievements], lines 562-566.  Line 562 reaches us as
    [score = [STREET_ADDRESS], indicators in keyword_mapping.items():], the
    anonymizer having swallowed "0", the line break and "for keyword".  The
    spec counts the (category, indicator) pairs whose category occurs in
    the lowercased description and whose indicator occurs in the lowercased
    achievement, as the rest of the loop does; the two lines are
    [score = 0] and [for keyword, indicators in keyword_mapping.items():]. *)
Definition achievement_score (description_lower achievement : string) : nat :=
  fold_left
    (fun score (item : string * list string) =>
       let '(keyword, indicators) := item in
       if Py.str_in keyword description_lower then
         fold_left
           (fun score indicator =>
              if Py.str_in (Py.lower indicator) (Py.lower achievement)
              then score + 1 else score)
           indicators score
       else score)
    keyword_mapping 0.

(** [select_achievements].  The sort key is the first component of the
    [(score, achievement)] pairs. *)
Definition select_achievements (self : ApplicationKitParser)
    (job_description : string) (count : Z) : list string :=
  let achievements := Py.get (achievements_bank (senior_kit self)) [] in
  match achievements with
  | [] => []
  | _ :: _ =>
      let description_lower := Py.lower job_description in
      let selected :=
        fold_left
          (fun selected achievement =>
             selected ++ [(achievement_score description_lower achievement, achievement)])
          achievements [] in
      let selected := Py.sort_reverse (@fst nat string) selected in
      map snd (Py.slice_to count selected)
  end.

(* ================================================================= *)
(** ** Template engine ([agents/enhanced_template_engine.py]) *)

(** The line break. *)
Definition nl : string := String (ascii_of_nat 10) EmptyString.

(** A dictionary is truthy when it has a key. *)
Definition variant_truthy (v : Variant) : bool :=
  match role v, v_summary v, top_bullets v with
  | None, None, None => false
  | _, _, _ => true
  end.

(** [if company_variant:] on the optional dictionary. *)
Definition variant_present (company_variant : option Variant) : option Variant :=
  match company_variant with
  | Some v => if variant_truthy v then Some v else None
  | None => None
  end.

(** A string is truthy when it is not empty. *)
Definition str_truthy (s : string) : bool :=
  match s with
  | EmptyString => false
  | String _ _ => true
  end.

Definition bullet (text : string) : string := ("- " ++ text)%string.

Section RenderResume.
Variable parser : ApplicationKitParser.
Variable job_data : Job.

Definition variant_level : string :=
  get_variant_for_role (Py.get (job_title job_data) "").

Definition is_director : bool := String.eqb variant_level "director".

Definition kit : Kit :=
  if is_director then director_kit parser else senior_kit parser.

Definition company_variant : option Variant :=
  get_company_variant parser (Py.get (job_company job_data) "").

Definition kit_title : string :=
  Py.get (h_title (Py.get (header kit) empty_header)) "".

(** Lines 36-40. *)
Definition header_lines : list string :=
  let header := Py.get (header kit) empty_header in
  [ ("**" ++ Py.get (h_name header) "[YOUR_NAME]" ++ "**")%string;
    (Py.get (h_location header) "[CITY], [STATE_ABBR]" ++ " • "
      ++ Py.get (h_phone header) "[PHONE_NUMBER]" ++ " • "
      ++ Py.get (h_email header) "[USERNAME]@mpthaker.xyz" ++ " • "
      ++ Py.get (h_linkedin header) "linkedin.com/in/[USERNAME]")%string;
    "" ].

(** Lines 42-46. *)
Definition title_line : string :=
  match variant_present company_variant with
  | Some v => ("**" ++ Py.get (role v) kit_title ++ "**")%string
  | None => ("**" ++ kit_title ++ "**")%string
  end.

(** Lines 48-53. *)
Definition summary_lines : list string :=
  [ match variant_present company_variant with
    | Some v => Py.get (v_summary v) (Py.get (summary kit) "")
    | None => Py.get (summary kit) ""
    end;
    "" ].

(** Lines 55-75. *)
Definition outcome_lines : list string :=
  (if is_director then
     ["**executive summary (what you get)**"]
     ++ map bullet (Py.get (executive_summary kit) [])
     ++ [""]
     ++ ["**select portfolio outcomes**"]
     ++ map bullet (Py.get (portfolio_outcomes kit) [])
   else
     ["**signature outcomes**"]
     ++ match variant_present company_variant with
        | Some v => map bullet (Py.get (top_bullets v) [])
        | None => []
        end
     ++ map bullet (firstn 5 (Py.get (signature_outcomes kit) [])))
  ++ [""].

(** Lines 77-91. *)
Definition skill_lines : list string :=
  (if is_director then
     ["**core capabilities**"]
     ++ map (fun '(category, items) => ("- **" ++ category ++ ":** " ++ items)%string)
            (Py.get (core_capabilities kit) [])
   else
     ["**core skills**"]
     ++ map (fun '(category, items) => ("- " ++ category ++ ": " ++ items)%string)
            (Py.get (core_skills kit) []))
  ++ [""; "---"; ""].

(** The body of the loop over the kit's experience entries, lines 98-117. *)
Definition experience_entry_lines (exp : KitExperience) : list string :=
  let heading :=
    match (if is_director then ke_scope exp else None) with
    | Some (String c scope) =>
        ("**" ++ ke_company exp ++ " — " ++ ke_title exp ++ "** *"
          ++ String c scope ++ "* (" ++ ke_dates exp ++ ")")%string
    | _ =>
        ("**" ++ ke_company exp ++ " — " ++ ke_title exp ++ "** ("
          ++ ke_dates exp ++ ")")%string
    end in
  let job_description := Py.lower (Py.get (job_description job_data) "") in
  [heading]
  ++ (if Py.str_in "lovingly" (Py.lower (ke_company exp))
      then map bullet (select_achievements parser job_description 6)
      else map bullet (firstn 4 (ke_bullets exp)))
  ++ [""].

(** Lines 93-117. *)
Definition experience_lines : list string :=
  ["## experience"; ""]
  ++ flat_map experience_entry_lines (Py.get (experience kit) []).

(** Lines 119-141. *)
Definition closing_lines : list string :=
  ["**education**";
   Py.get (education kit) "Pace University — BA, English Language & Literature";
   ""]
  ++ (if is_director then
        ["**speaking & media**"] ++ Py.get (speaking_media kit) []
      else
        ["**selected projects & ip**"]
        ++ map bullet (Py.get (selected_projects kit) []))
  ++ [""]
  ++ (if is_director then
        ["**keywords for ats**"; Py.get (director_keywords kit) ""]
      else
        ["**keywords for ats**"; Py.get (ats_keywords kit) ""]).

(** The list [resume_lines] when [render_resume] returns. *)
Definition resume_lines : list string :=
  header_lines ++ [title_line] ++ summary_lines ++ outcome_lines
  ++ skill_lines ++ experience_lines ++ closing_lines.

Definition render_resume : string := Py.join nl resume_lines.
End RenderResume.

(** The template used when the senior kit has none. *)
Definition fallback_template : string :=
  Py.join nl
    ["Dear Hiring Manager,";
     "";
     "You're looking for a product leader who can turn an AI roadmap into shipped outcomes. That's where I do my best work. I operate end-to-end: clarify the problem, design the workflow, ship with guardrails, and measure adoption and ROI.";
     "";
     "**Why [Company], why me**  ";
     "• **Roadmap → results:** I translate strategy into user stories, acceptance criteria, and weekly releases.  ";
     "• **Hands-on:** I build and ship AI-assisted workflows (agents, evals, guardrails) — not slideware.  ";
     "• **Governed speed:** I partner early with Security/Legal so we move fast without risking compliance.";
     "";
     "**90-day plan**  ";
     "1) **Assess & align** current tools, datasets, and use cases; define success metrics (adoption, cycle time, quality).  ";
     "2) **Pilot with proof**: 1–2 high-leverage pilots with weekly evals and clear decision gates.  ";
     "3) **Operationalize** with playbooks and enablement; ramp shadow-mode → production.  ";
     "4) **Govern** via lightweight review and audit trails.";
     "";
     "I'd love to share shipped examples and discuss where we can deliver impact in quarter one.";
     "";
     "Sincerely,  ";
     "[YOUR_NAME]"].

(** The three rewrites of the 90-day plan, lines 209-223. *)
Definition platform_rewrite (letter : string) : string :=
  Py.replace letter "1–2 high-leverage pilots"
    "platform capabilities that enable multiple teams".

Definition data_rewrite (letter : string) : string :=
  Py.replace letter "1–2 high-leverage pilots"
    "data ingestion and quality pilots with measurable SLAs".

Definition metrics_rewrite (letter : string) : string :=
  Py.replace letter "adoption, cycle time, quality"
    "adoption, revenue impact, retention".

(** Which rewrite a call applies. *)
Inductive Rewrite := PlatformRewrite | DataRewrite | MetricsRewrite.

Definition apply_rewrite (r : Rewrite) : string -> string :=
  match r with
  | PlatformRewrite => platform_rewrite
  | DataRewrite => data_rewrite
  | MetricsRewrite => metrics_rewrite
  end.

Section RenderCoverLetter.
Variable parser : ApplicationKitParser.
Variable job_data : Job.

(** Lines 148-178: the template with its placeholders filled. *)
Definition letter_filled : string :=
  let company := Py.get (job_company job_data) "Your Company" in
  let template := Py.get (cover_letter_template (senior_kit parser)) "" in
  let template := if str_truthy template then template else fallback_template in
  let letter := Py.replace template "[Company]" company in
  Py.replace letter "[Hiring Manager]" "Hiring Manager".

(** Lines 180-193. *)
Definition company_intro : option string :=
  let company := Py.get (job_company job_data) "Your Company" in
  let intros := Py.get (cover_letter_intros (senior_kit parser)) [] in
  match company_key company with
  | Some k => dict_get intros k
  | None => None
  end.

(** Lines 195-203: the letter once a company intro, if any, is in place. *)
Definition letter_with_intro : string :=
  let letter := letter_filled in
  match company_intro with
  | Some (String c intro) =>
      let first_para_end :=
        Py.find letter (nl ++ nl)%string
          (Py.find letter "That's where I do my best work." 0) in
      if (first_para_end =? -1)%Z then letter
      else
        let cut := Z.to_nat (first_para_end + 2) in
        (Py.take cut letter ++ String c intro ++ nl ++ nl ++ Py.drop cut letter)%string
  | _ => letter
  end.

(** Lines 205-223, as the list of [replace] calls the function makes on the
    letter, in the order it makes them. *)
Definition plan_rewrites : list Rewrite :=
  let job_description := Py.lower (Py.get (job_description job_data) "") in
  if Py.str_in "platform" job_description then [PlatformRewrite]
  else if Py.str_in "data" job_description then [DataRewrite]
  else if Py.str_in "revenue" job_description
          || Py.str_in "growth" job_description then [MetricsRewrite]
  else [].

(** [render_cover_letter]. *)
Definition render_cover_letter : string :=
  let letter := letter_with_intro in
  let job_description := Py.lower (Py.get (job_description job_data) "") in
  if Py.str_in "platform" job_description then
    Py.replace letter "1–2 high-leverage pilots"
      "platform capabilities that enable multiple teams"
  else if Py.str_in "data" job_description then
    Py.replace letter "1–2 high-leverage pilots"
      "data ingestion and quality pilots with measurable SLAs"
  else if Py.str_in "revenue" job_description
          || Py.str_in "growth" job_description then
    Py.replace letter "adoption, cycle time, quality"
      "adoption, revenue impact, retention"
  else letter.
End RenderCoverLetter.

(* ================================================================= *)
(** ** The connection finder as the specification words it *)

(** The relevance score of one record: the number of its keywords found in
    the lowercased job text, plus 2 when the company name matches one of
    the record's companies. *)
Definition spec_relevance_score (company_name text : string)
    (experience : Experience) : nat :=
  Py.count_if (fun keyword => Py.str_in keyword text)
              (relevance_keywords experience)
  + (if Py.any (fun comp => Py.str_in (Py.lower comp) (Py.lower company_name))
               (Py.get (companies experience) [])
     then 2 else 0).

(** The record as it is reported, with its relevance score. *)
Definition spec_entry (company_name text : string)
    (item : string * Experience) : RelevantExperience :=
  {| re_type := fst item;
     re_description := exp_description (snd item);
     re_metrics := exp_metrics (snd item);
     re_talking_point := talking_point (snd item);
     relevance_score := spec_relevance_score company_name text (snd item) |}.

(** Score every record, keep those that score above zero, order them by
    decreasing score keeping ties in table order, retain the first three. *)
Definition spec_find_connections (self : PersonalContextManager)
    (company_name job_title job_description : string)
    : list RelevantExperience :=
  let text := job_text company_name job_title job_description in
  let scored := map (spec_entry company_name text) (experiences self) in
  let kept := filter (fun r => (0 <? relevance_score r)%nat) scored in
  firstn 3 (Py.sort_reverse relevance_score kept).

(* ================================================================= *)
(** ** Concrete inputs used in the statements below *)

(** The job of the end-to-end scenario, for a description [d]. *)
Definition scenario_job (d : string) : Job :=
  {| job_title := Some "Senior Product Manager, AI Platform";
     job_company := Some "OpenAI";
     job_seniority_level := None;
     job_required_experience := None;
     job_description := Some d;
     job_location := Some "Remote";
     job_workplace_type := Some "Remote";
     job_personal_connections := None;
     job_match_score := None;
     job_priority := None |}.

Definition scenario_description : string :=
  "...requires machine learning and LLM experience, 5 years...".

(** A job that carries only a title and a company. *)
Definition titled_job (title company : string) : Job :=
  {| job_title := Some title;
     job_company := Some company;
     job_seniority_level := None;
     job_required_experience := None;
     job_description := None;
     job_location := None;
     job_workplace_type := None;
     job_personal_connections := None;
     job_match_score := None;
     job_priority := None |}.

(** A parser whose senior kit holds a two-item achievements bank and a
    Zillow variant, and whose director kit is empty. *)
Definition sample_variant : Variant :=
  {| role := Some "senior product manager — zillow";
     v_summary := Some "Summary written for Zillow";
     top_bullets := Some ["Zillow bullet"] |}.

Definition sample_senior_kit : Kit :=
  {| header := None; summary := Some "Generic summary";
     executive_summary := None; portfolio_outcomes := None;
     signature_outcomes := Some ["Generic outcome"];
     core_capabilities := None; core_skills := None; experience := None;
     education := None; speaking_media := None; selected_projects := None;
     director_keywords := None; ats_keywords := None;
     role_variants := Some [("zillow", sample_variant)];
     achievements_bank := Some ["first"; "second"];
     cover_letter_template := None;
     cover_letter_intros := None |}.

Definition sample_parser : ApplicationKitParser :=
  {| senior_kit := sample_senior_kit; director_kit := empty_kit |}.

(** A job whose description names every keyword the 90-day-plan rewrites
    look for, and a parser whose kits were not found. *)
Definition keyword_rich_job : Job :=
  {| job_title := Some "Product Manager";
     job_company := Some "Acme";
     job_seniority_level := None;
     job_required_experience := None;
     job_description := Some "Own the data Platform and drive revenue growth";
     job_location := None;
     job_workplace_type := None;
     job_personal_connections := None;
     job_match_score := None;
     job_priority := None |}.

Definition empty_parser : ApplicationKitParser :=
  {| senior_kit := empty_kit; director_kit := empty_kit |}.

(* ================================================================= *)
(** ** More of the scorer's callers and helpers *)

(** [job['description'] = d] on a job dictionary. *)
Definition set_description (job : Job) (d : option string) : Job :=
  {| job_title := job_title job;
     job_company := job_company job;
     job_seniority_level := job_seniority_level job;
     job_required_experience := job_required_experience job;
     job_description := d;
     job_location := job_location job;
     job_workplace_type := job_workplace_type job;
     job_personal_connections := job_personal_connections job;
     job_match_score := job_match_score job;
     job_priority := job_priority job |}.

(** A parser whose senior kit holds nothing but an achievements bank. *)
Definition parser_with_bank (bank : list string) : ApplicationKitParser :=
  {| senior_kit :=
       {| header := None; summary := None; executive_summary := None;
          portfolio_outcomes := None; signature_outcomes := None;
          core_capabilities := None; core_skills := None; experience := None;
          education := None; speaking_media := None; selected_projects := None;
          director_keywords := None; ats_keywords := None; role_variants := None;
          achievements_bank := Some bank; cover_letter_template := None;
          cover_letter_intros := None |};
     director_kit := empty_kit |}.

(* ================================================================= *)
(** ** Job discovery engine ([job_discovery_engine.py]) *)

(** The engine object, as far as scoring reads it. *)
Record JobDiscoveryEngine := {
  target_companies : list string
}.

(** The list set by [JobDiscoveryEngine.__init__]. *)
Definition default_target_companies : list string :=
  ["OpenAI"; "Anthropic"; "Google"; "Meta"; "Microsoft"; "Amazon";
   "Apple"; "Netflix"; "Spotify"; "Stripe"; "Databricks"; "Snowflake";
   "Palantir"; "Scale AI"; "Cohere"; "Stability AI"; "Runway";
   "Character AI"; "Perplexity"; "Midjourney"; "Inflection AI"].

Definition default_discovery_engine : JobDiscoveryEngine :=
  {| target_companies := default_target_companies |}.

Definition discovery_ai_terms : list string :=
  ["artificial intelligence"; "machine learning"; "llm"; "genai";
   "deep learning"; "neural"; "transformer"; "gpt"; "claude"].

(** [job.get(k)] is truthy: the key is there and its text is not empty. *)
Definition field_truthy (field : option string) : bool :=
  match field with
  | Some s => str_truthy s
  | None => false
  end.

(** [job.get('company') in self.target_companies]. *)
Definition is_target_company (self : JobDiscoveryEngine) (job : Job) : bool :=
  match job_company job with
  | Some c => existsb (String.eqb c) (target_companies self)
  | None => false
  end.

(** Lines 193-222 of [score_and_filter_jobs]: the running score of one job. *)
Definition discovery_score (self : JobDiscoveryEngine) (job : Job) : float :=
  let score := 0.0%float in
  let title_lower := Py.lower (Py.get (job_title job) "") in
  let score :=
    if Py.str_in "product manager" title_lower then (score + 0.3)%float else score in
  let score :=
    if Py.any (fun term => Py.str_in term title_lower)
         ["senior"; "staff"; "principal"; "lead"]
    then (score + 0.2)%float else score in
  let score :=
    if Py.any (fun term => Py.str_in term title_lower) ["ai"; "ml"; "genai"; "llm"]
    then (score + 0.3)%float else score in
  let score :=
    if is_target_company self job then (score + 0.2)%float else score in
  let score :=
    if Py.str_in "remote" (Py.lower (Py.get (job_location job) ""))
    then (score + 0.1)%float
    else if Py.str_in "new york" (Py.lower (Py.get (job_location job) ""))
    then (score + 0.08)%float
    else score in
  let desc_lower := Py.lower (Py.get (job_description job) "") in
  let ai_count :=
    Py.count_if (fun term => Py.str_in term desc_lower) discovery_ai_terms in
  if (2 <=? ai_count)%nat then (score + 0.2)%float
  else if (1 <=? ai_count)%nat then (score + 0.1)%float
  else score.

(** Lines 226-232: the priority, read off the score before it is capped. *)
Definition discovery_priority (score : float) : Priority :=
  if (0.7 <=? score)%float then HIGH
  else if (0.5 <=? score)%float then MEDIUM
  else LOW.

(** The body of the loop, lines 187-236: a job without title or company is
    skipped; the others get their capped score and their priority, and the
    HIGH and MEDIUM ones are appended to the list being built.  (The
    dictionaries of the LOW jobs are written to as well; they are not
    returned.) *)
Definition discovery_step (self : JobDiscoveryEngine)
    (scored_jobs : list Job) (job : Job) : list Job :=
  if negb (field_truthy (job_title job)) || negb (field_truthy (job_company job))
  then scored_jobs
  else
    let score := discovery_score self job in
    let priority := discovery_priority score in
    let job := set_score_and_priority job (Py.min score 1.0%float) priority in
    match priority with
    | HIGH | MEDIUM => scored_jobs ++ [job]
    | LOW => scored_jobs
    end.

Section FloatSort.
Variable A : Type.
Variable key : A -> float.

(** One step of a stable descending insertion on binary64 keys. *)
Fixpoint insert_desc_float (x : A) (l : list A) : list A :=
  match l with
  | [] => [x]
  | y :: l' =>
      if (key x <? key y)%float then y :: insert_desc_float x l'
      else x :: y :: l'
  end.

(** [xs.sort(key=key, reverse=True)] for keys that are numbers. *)
Fixpoint sort_reverse_float (l : list A) : list A :=
  match l with
  | [] => []
  | x :: l' => insert_desc_float x (sort_reverse_float l')
  end.
End FloatSort.

(** [x['match_score']] for a job that has one. *)
Definition stored_score (job : Job) : float :=
  Py.get (job_match_score job) 0%float.

(** [score_and_filter_jobs]. *)
Definition score_and_filter_jobs (self : JobDiscoveryEngine)
    (jobs : list Job) : list Job :=
  let scored_jobs := fold_left (discovery_step self) jobs [] in
  sort_reverse_float stored_score scored_jobs.

(** The jobs the loop keeps and what it stores in them, written as a
    filter and a map, to state what the loop computes. *)
Definition discovery_keeps (self : JobDiscoveryEngine) (job : Job) : bool :=
  field_truthy (job_title job) && field_truthy (job_company job)
  && match discovery_priority (discovery_score self job) with
     | LOW => false
     | _ => true
     end.

Definition discovery_rescore (self : JobDiscoveryEngine) (job : Job) : Job :=
  set_score_and_priority job
    (Py.min (discovery_score self job) 1.0%float)
    (discovery_priority (discovery_score self job)).

(* ================================================================= *)
(** ** The rest of the personal context manager *)

(** A value of [self.side_projects]; the three projects do not share all
    their keys. *)
Record SideProject := {
  sp_name : string;
  sp_description : string;
  sp_relevance : string;
  sp_url : option string;
  sp_technologies : option (list string);
  sp_github : option string
}.

Definition side_projects : list (string * SideProject) :=
  [ ("pm_podcast",
     {| sp_name := "PM in the PM";
        sp_description := "Host practitioner podcast on shipping GenAI responsibly";
        sp_relevance := "Demonstrates thought leadership and commitment to responsible AI";
        sp_url := Some "Coming soon";
        sp_technologies := None;
        sp_github := None |});
    ("weather_threads",
     {| sp_name := "WeatherThreads";
        sp_description := "Built AI fashion recommendation app with personalized comfort settings";
        sp_relevance := "Shows hands-on technical skills and consumer product thinking";
        sp_url := None;
        sp_technologies := Some ["LLM"; "personalization"; "rules engine"];
        sp_github := None |});
    ("job_automation",
     {| sp_name := "Job Search Automation";
        sp_description := "Open-source job search system with AI personalization";
        sp_relevance := "Demonstrates building in public and automation expertise";
        sp_url := None;
        sp_technologies := None;
        sp_github := Some "github.com/[USERNAME]" |}) ].

(** A value of [self.values]. *)
Record PersonalValue := {
  pv_description : string;
  pv_relevance : string;
  pv_anti_patterns : option (list string);
  pv_examples : option (list string);
  pv_practices : option (list string);
  pv_style : option string
}.

Definition family_first : PersonalValue :=
  {| pv_description := "Sustainable work-life integration, no hustle culture";
     pv_relevance := "Seeking companies with healthy culture and work-life balance";
     pv_anti_patterns := Some ["24/7 availability"; "weekend work expected";
                               "unlimited PTO (but never taken)"];
     pv_examples := None; pv_practices := None; pv_style := None |}.

Definition building_in_public : PersonalValue :=
  {| pv_description := "Open source contributor, transparent about successes and failures";
     pv_relevance := "Prefer companies that value transparency and knowledge sharing";
     pv_anti_patterns := None;
     pv_examples := Some ["Open source projects"; "Public speaking"; "Blog posts"];
     pv_practices := None; pv_style := None |}.

Definition ethical_ai : PersonalValue :=
  {| pv_description := "Committed to responsible AI with governance and safety";
     pv_relevance := "Align with companies prioritizing AI safety and ethics";
     pv_anti_patterns := None; pv_examples := None;
     pv_practices := Some ["Evaluation frameworks"; "Bias testing"; "Guardrails";
                           "Audit trails"];
     pv_style := None |}.

(** The entries of [self.conversation_starters] that
    [_select_conversation_starters] reads. *)
Definition starter_startup : string :=
  "The 0→1 phase is my favorite - what's the biggest unknown you're trying to validate right now?".

Definition starter_enterprise : string :=
  "Working with Fortune [STREET_ADDRESS] present unique challenges - how do you balance innovation with governance?".

Definition starter_ai_focused : string :=
  "Your approach to {specific_ai_tech} is interesting - how are you thinking about evaluation and safety?".

Definition starter_platform : string :=
  "Platform teams are force multipliers - how do you measure internal developer satisfaction?".

(** The whole [connections] dictionary. *)
Record FullConnections := {
  fc_relevant_experiences : list RelevantExperience;
  fc_applicable_projects : list SideProject;
  fc_shared_values : list PersonalValue;
  fc_conversation_starters : list string;
  fc_unique_angle : string;
  fc_why_interested : string;
  fc_what_i_bring : list string
}.

(** [s.split(',')[0]]: the text before the first comma. *)
Fixpoint before_comma (s : string) : string :=
  match s with
  | EmptyString => EmptyString
  | String c s' =>
      if Ascii.eqb c ","%char then EmptyString else String c (before_comma s')
  end.

(** [_generate_why_interested], given the three lists it reads. *)
Definition generate_why_interested (company role : string)
    (relevant : list RelevantExperience) (shared : list PersonalValue)
    (projects : list SideProject) : string :=
  let reasons := [] in
  let reasons :=
    match relevant with
    | exp :: _ =>
        reasons ++ [("My experience with " ++ Py.replace (re_type exp) "_" " "
                     ++ " directly applies")%string]
    | [] => reasons
    end in
  let reasons :=
    match shared with
    | v :: _ =>
        reasons ++ [("Your commitment to " ++ before_comma (pv_description v)
                     ++ " resonates with me")%string]
    | [] => reasons
    end in
  let reasons :=
    match projects with
    | p :: _ =>
        reasons ++ [("I've been exploring similar problems with my "
                     ++ sp_name p ++ " project")%string]
    | [] => reasons
    end in
  let reasons :=
    match reasons with
    | [] => [("The opportunity to shape " ++ role ++ " at " ++ company
              ++ " aligns perfectly with my experience")%string]
    | _ :: _ => reasons
    end in
  Py.join " and " (firstn 2 reasons).

Definition leadership_line : string :=
  "Calm leadership that ships weekly while maintaining quality".

Definition ai_expertise_line : string :=
  "Hands-on AI expertise from prompt engineering to production deployment".

Section Printed.
(** [str(exp)], the text Python prints for an experience dictionary, is
    left open: nothing proved below depends on how a dictionary prints. *)
Variable str_of_experience : RelevantExperience -> string.

(** [_generate_what_i_bring]. *)
Definition generate_what_i_bring (relevant : list RelevantExperience)
    : list string :=
  let value_props :=
    map (fun exp => (re_metrics exp ++ " from "
                     ++ Py.replace (re_type exp) "_" " ")%string)
        (firstn 2 relevant) in
  let value_props := value_props ++ [leadership_line] in
  let value_props :=
    if Py.any (fun exp => Py.str_in "ai" (str_of_experience exp)) relevant
    then value_props ++ [ai_expertise_line]
    else value_props in
  firstn 3 value_props.
End Printed.

(** [_select_conversation_starters]; the [company] argument is not read. *)
Definition select_conversation_starters (text : string) : list string :=
  let starters := [] in
  let starters :=
    if Py.any (fun term => Py.str_in term text)
         ["series a"; "series b"; "seed"; "startup"]
    then starters ++ [starter_startup]
    else if Py.any (fun term => Py.str_in term text)
              ["enterprise"; "fortune"; "global"]
    then starters ++ [starter_enterprise]
    else starters in
  let starters :=
    if Py.str_in "ai" text || Py.str_in "ml" text then
      let starter := starter_ai_focused in
      let starter :=
        if Py.str_in "llm" text
        then Py.replace starter "{specific_ai_tech}" "LLM orchestration"
        else if Py.str_in "agent" text
        then Py.replace starter "{specific_ai_tech}" "agent systems"
        else Py.replace starter "{specific_ai_tech}" "AI" in
      starters ++ [starter]
    else starters in
  let starters :=
    if Py.str_in "platform" text then starters ++ [starter_platform]
    else starters in
  firstn 2 starters.

(** Lines 210-213 of [find_connections]. *)
Definition applicable_projects_for (text : string) : list SideProject :=
  fold_left
    (fun acc (item : string * SideProject) =>
       if Py.any (fun tech => Py.str_in tech text)
            (Py.get (sp_technologies (snd item)) [])
       then acc ++ [snd item] else acc)
    side_projects [].

(** Lines 215-223 of [find_connections]. *)
Definition shared_values_for (text : string) : list PersonalValue :=
  let shared := [] in
  let shared :=
    if Py.str_in "remote" text || Py.str_in "flexible" text
    then shared ++ [family_first] else shared in
  let shared :=
    if Py.str_in "open source" text || Py.str_in "transparency" text
    then shared ++ [building_in_public] else shared in
  if Py.str_in "responsible" text || Py.str_in "ethical" text
     || Py.str_in "safety" text
  then shared ++ [ethical_ai] else shared.

(** [find_connections] with every key of the dictionary it returns. *)
Definition find_connections_full
    (str_of_experience : RelevantExperience -> string)
    (self : PersonalContextManager)
    (company_name job_title job_description : string) : FullConnections :=
  let text := job_text company_name job_title job_description in
  let relevant :=
    relevant_experiences
      (find_connections self company_name job_title job_description) in
  let projects := applicable_projects_for text in
  let shared := shared_values_for text in
  let unique_angle :=
    match relevant with
    | top_exp :: _ =>
        ("Unlike typical PMs, I've actually "
         ++ Py.lower (re_description top_exp))%string
    | [] => ""
    end in
  {| fc_relevant_experiences := relevant;
     fc_applicable_projects := projects;
     fc_shared_values := shared;
     fc_conversation_starters := select_conversation_starters text;
     fc_unique_angle := unique_angle;
     fc_why_interested :=
       generate_why_interested company_name job_title relevant shared projects;
     fc_what_i_bring := generate_what_i_bring str_of_experience relevant |}.

(* ================================================================= *)
(** ** Company intelligence engine ([agents/company_intelligence_engine.py]) *)

(** The [source] dictionary of a news article. *)
Record Source := {
  src_id : option string;
  src_name : option string
}.

(** A news article, as the engine reads it; a key that may be missing is
    an optional field. *)
Record Article := {
  art_title : option string;
  art_description : option string;
  art_publishedAt : option string;
  art_source : option Source;
  art_url : option string;
  art_credibility_score : option Z
}.

(** The [event] dictionary built for an article; [d.get(k)] of a missing
    key is [None]. *)
Record Event := {
  ev_title : option string;
  ev_date : option string;
  ev_source : option string;
  ev_url : option string;
  ev_summary : option string
}.

Definition event_of (article : Article) : Event :=
  {| ev_title := art_title article;
     ev_date := art_publishedAt article;
     ev_source := src_name (Py.get (art_source article)
                              {| src_id := None; src_name := None |});
     ev_url := art_url article;
     ev_summary := art_description article |}.

(** The [categories] table of [_analyze_news_content], in its order. *)
Definition news_categories : list (string * list string) :=
  [ ("financial_events",
     ["funding"; "revenue"; "ipo"; "acquisition"; "merger"; "investment";
      "valuation"; "earnings"]);
    ("product_launches",
     ["launch"; "release"; "announce"; "introduce"; "unveil"; "new product";
      "new feature"]);
    ("leadership_changes",
     ["ceo"; "cto"; "cfo"; "hire"; "appoint"; "resign"; "departure";
      "leadership"]);
    ("strategic_initiatives",
     ["strategy"; "partnership"; "expansion"; "initiative"; "transformation";
      "pivot"]);
    ("challenges",
     ["layoff"; "lawsuit"; "challenge"; "issue"; "problem"; "decline"; "loss";
      "struggle"]) ].

(** The [insights] dictionary, with the six lists given. *)
Definition insights_of (key_events strategic_initiatives challenges
    leadership_changes financial_events product_launches : list Event)
    : list (string * list Event) :=
  [ ("key_events", key_events);
    ("strategic_initiatives", strategic_initiatives);
    ("challenges", challenges);
    ("leadership_changes", leadership_changes);
    ("financial_events", financial_events);
    ("product_launches", product_launches) ].

(** [d[k].append(v)] for a key of the dictionary. *)
Definition dict_append {V} (d : list (string * list V)) (k : string) (v : V)
    : list (string * list V) :=
  map (fun entry =>
         if String.eqb (fst entry) k then (fst entry, snd entry ++ [v])
         else entry)
      d.

(** [f"{title} {description}"] of the lowercased title and description. *)
Definition article_content (article : Article) : string :=
  (Py.lower (Py.get (art_title article) "") ++ " "
   ++ Py.lower (Py.get (art_description article) ""))%string.

(** [any(keyword in content for keyword in keywords)]. *)
Definition article_matches (keywords : list string) (article : Article) : bool :=
  Py.any (fun keyword => Py.str_in keyword (article_content article)) keywords.

(** [article.get('credibility_score', 0) >= 80]. *)
Definition highly_credible (article : Article) : bool :=
  (80 <=? Py.get (art_credibility_score article) 0)%Z.

(** The loop over the categories for one article, lines 178-192. *)
Definition categorize_article (insights : list (string * list Event))
    (article : Article) : list (string * list Event) :=
  fold_left
    (fun insights (entry : string * list string) =>
       if article_matches (snd entry) article then
         let event := event_of article in
         let insights := dict_append insights (fst entry) event in
         if highly_credible article
         then dict_append insights "key_events" event
         else insights
       else insights)
    news_categories insights.

(** [_analyze_news_content]. *)
Definition analyze_news_content (articles : list Article)
    : list (string * list Event) :=
  let insights := insights_of [] [] [] [] [] [] in
  let insights := fold_left categorize_article articles insights in
  map (fun entry => (fst entry, firstn 3 (snd entry))) insights.

(** The events a category gets from a list of articles, and the key events
    an article gives rise to: one for each category it matches, when it is
    highly credible. *)
Definition category_events (category : string) (articles : list Article)
    : list Event :=
  map event_of
      (filter (article_matches (Py.get (dict_get news_categories category) []))
              articles).

Definition key_events_of (article : Article) : list Event :=
  flat_map
    (fun entry : string * list string =>
       if article_matches (snd entry) article && highly_credible article
       then [event_of article] else [])
    news_categories.

(** [{x}] in an f-string for a value that may be [None]. *)
Definition fmt (field : option string) : string :=
  match field with
  | Some s => s
  | None => "None"
  end.

Section PrintedEvent.
(** [str(event).lower()], the lowercased text Python prints for an event
    dictionary, is left open. *)
Variable event_text : Event -> string.

(** [_get_relevant_experience]. *)
Definition get_relevant_experience (event : Event) : string :=
  let text := event_text event in
  if Py.str_in "ai" text || Py.str_in "ml" text
  then "LLM orchestration and AI platform development"
  else if Py.str_in "growth" text || Py.str_in "scale" text
  then "scaling products from 0 to 20K+ users"
  else if Py.str_in "platform" text
  then "platform thinking and reusable component libraries"
  else if Py.str_in "revenue" text || Py.str_in "monetization" text
  then "achieving <$10 CAC with LTV >$1,000"
  else "end-to-end product development".

(** [_extract_challenge_type]. *)
Definition extract_challenge_type (challenge : Event) : string :=
  let text := event_text challenge in
  if Py.str_in "layoff" text then "organizational efficiency"
  else if Py.str_in "competition" text then "competitive differentiation"
  else if Py.str_in "regulation" text then "regulatory compliance"
  else if Py.str_in "growth" text then "sustainable scaling"
  else "operational challenges".

(** The five points [_generate_talking_points] draws from the research,
    each from the first event of its list. *)
Definition financial_point (event : Event) : string :=
  ("Congratulations on " ++ fmt (ev_title event)
   ++ " - how is this impacting the product roadmap?")%string.

Definition launch_point (launch : Event) : string :=
  ("I saw the recent " ++ fmt (ev_title launch)
   ++ " - I'd love to discuss how my experience with "
   ++ get_relevant_experience launch ++ " could contribute")%string.

Definition initiative_point (initiative : Event) : string :=
  ("Your " ++ fmt (ev_title initiative) ++ " aligns with my work on "
   ++ get_relevant_experience initiative)%string.

Definition challenge_point (challenge : Event) : string :=
  ("I've navigated similar challenges at my previous companies and have ideas on approaching "
   ++ extract_challenge_type challenge)%string.

Definition leadership_point (change : Event) : string :=
  ("With the recent " ++ fmt (ev_title change)
   ++ ", I imagine there are exciting new directions for the product team")%string.

Definition first_point (point : Event -> string) (events : list Event)
    : list string :=
  match events with
  | event :: _ => [point event]
  | [] => []
  end.

(** [_generate_talking_points], given the five lists of the research it
    reads and the job title, [None] when there is none. *)
Definition generate_talking_points
    (financial_events product_launches strategic_initiatives challenges
     leadership_changes : list Event) (job_title : option string)
    : list string :=
  let talking_points :=
    first_point financial_point financial_events
    ++ first_point launch_point product_launches
    ++ first_point initiative_point strategic_initiatives
    ++ first_point challenge_point challenges
    ++ first_point leadership_point leadership_changes in
  let talking_points :=
    if field_truthy job_title then
      let title := Py.lower (Py.get job_title "") in
      if Py.str_in "ai" title || Py.str_in "ml" title
      then talking_points
           ++ ["I'd love to share how I reduced PM overhead by 80% using multi-agent AI systems at [CURRENT_COMPANY]"]
      else if Py.str_in "director" title || Py.str_in "principal" title
      then talking_points
           ++ ["Having led 15-20 person cross-functional teams, I understand the challenges of scaling product organizations"]
      else talking_points
    else talking_points in
  firstn 5 talking_points.
End PrintedEvent.

(** [_assess_company_momentum], given the four lists it measures. *)
Definition assess_company_momentum
    (financial_events product_launches strategic_initiatives challenges
     : list Event) : string :=
  let positive_signals :=
    (List.length financial_events + List.length product_launches
     + List.length strategic_initiatives)%nat in
  let negative_signals := List.length challenges in
  if (negative_signals * 2 <? positive_signals)%nat then "strong_growth"
  else if (negative_signals <? positive_signals)%nat then "steady_growth"
  else if (positive_signals <? negative_signals)%nat then "facing_challenges"
  else "stable".

(* ================================================================= *)
(** ** Description parsing ([agents/linkedin_scraper.py]) *)

(** The [education] entry that [_parse_description] stores (lines 318-324),
    [None] when it stores none.  The entries found by regular-expression
    search are computed apart from this one and are not modelled. *)
Definition parsed_education (description : string) : option string :=
  let desc_lower := Py.lower description in
  if Py.str_in "bachelor" desc_lower || Py.str_in "bs" desc_lower
     || Py.str_in "ba" desc_lower
  then Some "Bachelor's degree"
  else if Py.str_in "master" desc_lower || Py.str_in "ms" desc_lower
          || Py.str_in "mba" desc_lower
  then Some "Master's degree"
  else if Py.str_in "phd" desc_lower || Py.str_in "doctorate" desc_lower
  then Some "PhD/Doctorate"
  else None.

(* ================================================================= *)
(** ** The rest of the template engine *)

(** [_determine_company_stage]. *)
Definition determine_company_stage (job_data : Job) : string :=
  let company := Py.lower (Py.get (job_company job_data) "") in
  let description := Py.lower (Py.get (job_description job_data) "") in
  if Py.any (fun indicator => Py.str_in indicator description
                              || Py.str_in indicator company)
       ["fortune"; "public company"; "nasdaq"; "nyse"; "enterprise";
        "global leader"; "industry leader"; "established"]
  then "enterprise"
  else if Py.any (fun indicator => Py.str_in indicator description)
            ["series c"; "series d"; "series e"; "pre-ipo"; "unicorn";
             "scaling"; "rapid growth"]
  then "growth"
  else "startup".

(** [_extract_technical_focus]. *)
Definition extract_technical_focus (job_data : Job) : string :=
  let description := Py.lower (Py.get (job_description job_data) "") in
  let title := Py.lower (Py.get (job_title job_data) "") in
  if Py.str_in "platform" title || Py.str_in "platform" description
  then "AI platforms and infrastructure"
  else if Py.str_in "data" title || Py.str_in "data product" description
  then "Data products and ingestion"
  else if Py.str_in "growth" title || Py.str_in "revenue" description
  then "Growth and revenue optimization"
  else if Py.str_in "genai" title || Py.str_in "generative" description
  then "Generative AI and LLM applications"
  else "AI product development".

(** The entries of [extract_template_variables] that are computed; the
    others copy fields of the job. *)
Record TemplateVariables := {
  tv_variant_level : string;
  tv_has_company_variant : bool;
  tv_selected_achievements : list string;
  tv_company_stage : string;
  tv_technical_focus : string
}.

Definition extract_template_variables (parser : ApplicationKitParser)
    (job_data : Job) : TemplateVariables :=
  let variant_level := get_variant_for_role (Py.get (job_title job_data) "") in
  let company_variant :=
    get_company_variant parser (Py.get (job_company job_data) "") in
  {| tv_variant_level := variant_level;
     tv_has_company_variant :=
       match company_variant with Some _ => true | None => false end;
     tv_selected_achievements :=
       select_achievements parser (Py.get (job_description job_data) "") 5;
     tv_company_stage := determine_company_stage job_data;
     tv_technical_focus := extract_technical_focus job_data |}.

(** A parser whose senior kit holds nothing but a cover letter template. *)
Definition parser_with_template (template : string) : ApplicationKitParser :=
  {| senior_kit :=
       {| header := None; summary := None; executive_summary := None;
          portfolio_outcomes := None; signature_outcomes := None;
          core_capabilities := None; core_skills := None; experience := None;
          education := None; speaking_media := None; selected_projects := None;
          director_keywords := None; ats_keywords := None; role_variants := None;
          achievements_bank := None; cover_letter_template := Some template;
          cover_letter_intros := None |};
     director_kit := empty_kit |}.

(* ================================================================= *)
(** * Properties *)

Open Scope nat_scope.

(** ** The stable descending sort *)

Section SortFacts.
Variable A : Type.
Variable key : A -> nat.

(** Keys never increase along the list. *)
Definition descending (l : list A) : Prop :=
  StronglySorted (fun a b => key b <= key a) l.

Lemma insert_desc_perm (x : A) (l : list A) :
  Permutation (x :: l) (Py.insert_desc key x l).
Proof.
  induction l as [|y l IH]; simpl.
  - apply Permutation_refl.
  - destruct (key x <? key y).
    + apply perm_trans with (y :: x :: l).
      * apply perm_swap.
      * apply perm_skip, IH.
    + apply Permutation_refl.
Qed.

Lemma sort_reverse_perm (l : list A) : Permutation l (Py.sort_reverse key l).
Proof.
  induction l as [|x l IH]; simpl.
  - apply perm_nil.
  - apply perm_trans with (x :: Py.sort_reverse key l).
    + apply perm_skip, IH.
    + apply insert_desc_perm.
Qed.

Lemma sort_reverse_length (l : list A) :
  List.length (Py.sort_reverse key l) = List.length l.
Proof. symmetry. apply Permutation_length, sort_reverse_perm. Qed.

Lemma sort_reverse_In (a : A) (l : list A) :
  In a (Py.sort_reverse key l) <-> In a l.
Proof.
  split; intro H.
  - eapply Permutation_in; [apply Permutation_sym, sort_reverse_perm | exact H].
  - eapply Permutation_in; [apply sort_reverse_perm | exact H].
Qed.

Lemma insert_desc_descending (x : A) (l : list A) :
  descending l -> descending (Py.insert_desc key x l).
Proof.
  unfold descending.
  induction l as [|y l IH]; simpl; intro Hs.
  - constructor; constructor.
  - inversion Hs as [|? ? Hl Hy]; subst.
    destruct (key x <? key y) eqn:E.
    + apply Nat.ltb_lt in E.
      constructor; [apply IH, Hl|].
      apply Forall_forall. intros z Hz.
      apply (Permutation_in _ (Permutation_sym (insert_desc_perm x l))) in Hz.
      destruct Hz as [<-|Hz]; [lia|].
      rewrite Forall_forall in Hy. apply Hy, Hz.
    + apply Nat.ltb_ge in E.
      constructor; [exact Hs|].
      constructor; [exact E|].
      rewrite Forall_forall in Hy |- *. intros z Hz.
      specialize (Hy z Hz). lia.
Qed.

Lemma sort_reverse_descending (l : list A) : descending (Py.sort_reverse key l).
Proof.
  induction l as [|x l IH]; simpl.
  - constructor.
  - apply insert_desc_descending, IH.
Qed.

(** Stability: the elements of any one key keep their input order. *)
Lemma insert_desc_stable (k : nat) (x : A) (l : list A) :
  filter (fun a => key a =? k) (Py.insert_desc key x l)
  = filter (fun a => key a =? k) (x :: l).
Proof.
  induction l as [|y l IH]; simpl; [reflexivity|].
  destruct (key x <? key y) eqn:E; [|reflexivity].
  apply Nat.ltb_lt in E. simpl. rewrite IH. simpl.
  destruct (key x =? k) eqn:Ex, (key y =? k) eqn:Ey; try reflexivity.
  apply Nat.eqb_eq in Ex, Ey. lia.
Qed.

Lemma sort_reverse_stable (k : nat) (l : list A) :
  filter (fun a => key a =? k) (Py.sort_reverse key l)
  = filter (fun a => key a =? k) l.
Proof.
  induction l as [|x l IH]; simpl; [reflexivity|].
  rewrite insert_desc_stable. simpl. rewrite IH. reflexivity.
Qed.

(** A prefix keeps, key by key, a prefix of what the whole list has. *)
Lemma filter_firstn_prefix (p : A -> bool) (n : nat) (l : list A) :
  exists rest, filter p l = filter p (firstn n l) ++ rest.
Proof.
  exists (filter p (skipn n l)).
  rewrite <- filter_app, firstn_skipn. reflexivity.
Qed.

Lemma descending_firstn (n : nat) (l : list A) :
  descending l -> descending (firstn n l).
Proof.
  unfold descending. revert n.
  induction l as [|x l IH]; intros [|n] Hs; simpl; try constructor.
  - inversion Hs; subst. apply IH. assumption.
  - inversion Hs as [|? ? _ Hx]; subst.
    rewrite Forall_forall in Hx |- *. intros z Hz.
    apply Hx. rewrite <- (firstn_skipn n l). apply in_or_app. left. exact Hz.
Qed.
End SortFacts.

(** Sorting the images of a list is the image of sorting the list. *)
Lemma sort_reverse_map (A B : Type) (key : B -> nat) (f : A -> B) (l : list A) :
  Py.sort_reverse key (map f l) = map f (Py.sort_reverse (fun a => key (f a)) l).
Proof.
  assert (Hins : forall x l',
    Py.insert_desc key (f x) (map f l')
    = map f (Py.insert_desc (fun a => key (f a)) x l')).
  { intros x l'. induction l' as [|y l' IH]; simpl; [reflexivity|].
    destruct (key (f x) <? key (f y)); simpl; [rewrite IH|]; reflexivity. }
  induction l as [|x l IH]; simpl; [reflexivity|].
  rewrite IH. apply Hins.
Qed.

(** A list built by appending one image at a time is the image of the list. *)
Lemma fold_left_snoc_map (A B : Type) (f : A -> B) (l : list A) (acc : list B) :
  fold_left (fun acc a => acc ++ [f a]) l acc = acc ++ map f l.
Proof.
  revert acc. induction l as [|x l IH]; intro acc; simpl.
  - rewrite app_nil_r. reflexivity.
  - rewrite IH, <- app_assoc. reflexivity.
Qed.

Lemma In_firstn (A : Type) (a : A) (n : nat) (l : list A) :
  In a (firstn n l) -> In a l.
Proof.
  intro H. rewrite <- (firstn_skipn n l). apply in_or_app. left. exact H.
Qed.

(** What a slice can and cannot contain. *)
Lemma slice_to_prefix (A : Type) (n : Z) (l : list A) :
  exists m, Py.slice_to n l = firstn m l.
Proof.
  unfold Py.slice_to. destruct (0 <=? n)%Z; eexists; reflexivity.
Qed.

Lemma slice_to_nonneg (A : Type) (n : Z) (l : list A) :
  (0 <= n)%Z -> Py.slice_to n l = firstn (Z.to_nat n) l.
Proof.
  intro H. unfold Py.slice_to.
  destruct (0 <=? n)%Z eqn:E; [reflexivity|].
  apply Z.leb_gt in E. lia.
Qed.

(* ================================================================= *)
(** ** Comparisons of binary64 values *)

Lemma SFcompare_antisym (x y : spec_float) (c : comparison) :
  SFcompare x y = Some c -> SFcompare y x = Some (CompOpp c).
Proof.
  destruct x as [sx|sx| |sx mx ex], y as [sy|sy| |sy my ey]; simpl;
    try discriminate;
    try (intros H; injection H as <-; destruct sx; try destruct sy; reflexivity);
    try (intros H; injection H as <-; destruct sy; reflexivity).
  intros H; injection H as <-.
  rewrite (Z.compare_antisym ex ey).
  change (PosDef.Pos.compare_cont Eq my mx) with (Pos.compare my mx).
  change (PosDef.Pos.compare_cont Eq mx my) with (Pos.compare mx my).
  rewrite (Pos.compare_antisym mx my).
  destruct sx, sy; simpl; try reflexivity;
    destruct (ex ?= ey)%Z; simpl; try reflexivity;
    destruct (mx ?= my)%positive; reflexivity.
Qed.

(** A value that some bound does not exceed is a number, so it lies strictly
    below any number that does not lie at or below it. *)
Lemma ltb_of_not_leb (a b s : float) :
  (b <=? s)%float = true -> (a <=? s)%float = false ->
  Prim2SF a <> S754_nan -> (s <? a)%float = true.
Proof.
  rewrite !leb_spec, ltb_spec. unfold SFleb, SFltb.
  intros Hb Ha Hn.
  destruct (SFcompare (Prim2SF a) (Prim2SF s)) as [c|] eqn:E.
  - apply SFcompare_antisym in E. rewrite E.
    destruct c; simpl; congruence.
  - exfalso.
    destruct (Prim2SF a), (Prim2SF b), (Prim2SF s); simpl in *; congruence.
Qed.

Lemma leb_false_of_ltb (a s : float) :
  (s <? a)%float = true -> (a <=? s)%float = false.
Proof.
  rewrite leb_spec, ltb_spec. unfold SFleb, SFltb.
  destruct (SFcompare (Prim2SF s) (Prim2SF a)) as [c|] eqn:E; try discriminate.
  apply SFcompare_antisym in E. rewrite E.
  destruct c; simpl; congruence.
Qed.

(* ================================================================= *)
(** ** Scorer *)

(** Splits the goal on every test the score depends on, leaving closed
    binary64 arithmetic. *)
Ltac split_tests :=
  repeat match goal with
         | |- context [if ?b then _ else _] => destruct b
         | |- context [match ?l with [] => _ | _ :: _ => _ end] => destruct l
         end.

Ltac unfold_blocks :=
  unfold calculate_match_score, connection_block, location_block,
    technical_block, seniority_block, title_block;
  cbv zeta.

(** C1.  For every job, whichever of its fields are present, the running
    score starts at zero and never decreases from one block of
    [_calculate_match_score] to the next (every weighted contribution is
    non-negative), the returned score is the running total capped by
    [min(score, 1.0)], and it lies in [0, 1]. *)
Theorem match_score_in_unit_interval (job : Job) :
  let s1 := title_block job 0%float in
  let s2 := seniority_block job s1 in
  let s3 := technical_block job s2 in
  let s4 := location_block job s3 in
  let s5 := connection_block job s4 in
  ((0 <=? s1) && (s1 <=? s2) && (s2 <=? s3) && (s3 <=? s4) && (s4 <=? s5))%float = true
  /\ calculate_match_score job = Py.min s5 1%float
  /\ (0 <=? calculate_match_score job)%float = true
  /\ (calculate_match_score job <=? 1)%float = true.
Proof.
  cbv zeta. repeat split.
  - unfold_blocks. split_tests; vm_compute; reflexivity.
  - unfold_blocks. split_tests; vm_compute; reflexivity.
  - unfold_blocks. split_tests; vm_compute; reflexivity.
Qed.

(** C2.  The priority is a threshold function of the score alone: HIGH
    exactly when the score is at least 0.70, MEDIUM exactly when it is at
    least 0.50 and below 0.70, LOW in every other case; 0.70 gives HIGH,
    0.6999 gives MEDIUM and 0.4999 gives LOW.  It is the priority that
    [process_scraped_job] stores next to the score it computed. *)
Theorem priority_thresholds (s : float) :
  (priority_of s = HIGH <-> (0.70 <=? s)%float = true)
  /\ (priority_of s = MEDIUM
      <-> (0.50 <=? s)%float = true /\ (s <? 0.70)%float = true)
  /\ (priority_of s = LOW
      <-> ~ (0.70 <=? s)%float = true
          /\ ~ ((0.50 <=? s)%float = true /\ (s <? 0.70)%float = true))
  /\ priority_of 0.70%float = HIGH
  /\ priority_of 0.6999%float = MEDIUM
  /\ priority_of 0.4999%float = LOW
  /\ (forall cm job, exists stored,
        job_match_score (process_scraped_job cm job) = Some stored
        /\ job_priority (process_scraped_job cm job) = Some (priority_of stored)).
Proof.
  assert (Hn : Prim2SF 0.70%float <> S754_nan) by (vm_compute; discriminate).
  assert (Hc : priority_of 0.70%float = HIGH /\ priority_of 0.6999%float = MEDIUM
               /\ priority_of 0.4999%float = LOW
               /\ (forall cm job, exists stored,
                     job_match_score (process_scraped_job cm job) = Some stored
                     /\ job_priority (process_scraped_job cm job)
                        = Some (priority_of stored))).
  { split; [vm_compute; reflexivity|].
    split; [vm_compute; reflexivity|].
    split; [vm_compute; reflexivity|].
    intros cm job. eexists. split; reflexivity. }
  unfold priority_of.
  destruct (0.70 <=? s)%float eqn:E7; [|destruct (0.50 <=? s)%float eqn:E5].
  - (* at least 0.70 *)
    split; [split; intros _; reflexivity|].
    split; [split; [discriminate | intros [_ H]]|].
    { apply leb_false_of_ltb in H. congruence. }
    split; [split; [discriminate | intros [H _]; exfalso; apply H; reflexivity]|].
    exact Hc.
  - (* at least 0.50 and not at least 0.70 *)
    assert (Hlt : (s <? 0.70)%float = true)
      by (exact (ltb_of_not_leb E5 E7 Hn)).
    split; [split; discriminate|].
    split; [split; [intros _; split; [reflexivity | exact Hlt] | intros _; reflexivity]|].
    split; [split; [discriminate | intros [_ H]; exfalso; apply H; split;
                                    [reflexivity | exact Hlt]]|].
    exact Hc.
  - (* neither *)
    split; [split; discriminate|].
    split; [split; [discriminate | intros [H _]; discriminate]|].
    split; [split; [intros _; split; [discriminate | intros [H _]; discriminate]
                   | intros _; reflexivity]|].
    exact Hc.
Qed.

(** C3.  The seniority block adds at most one amount to the running score,
    the first tier that matches deciding it: "senior" in the seniority
    field or the title gives 0.20 x 0.8; failing that, "mid" in the
    seniority field or a "5" or "7" in the required experience gives
    0.20 x 1.0; failing that, "director" or "principal" in the title gives
    0.20 x 0.6; failing all three the score is left as it was.  Exactly one
    of the four cases holds for a job, so no job is credited by two tiers. *)
Theorem seniority_first_match_wins (job : Job) (score : float) :
  let title := Py.lower (Py.get (job_title job) "") in
  let seniority := Py.lower (Py.get (job_seniority_level job) "") in
  let experience := Py.lower (Py.get (job_required_experience job) "") in
  let a := Py.str_in "senior" seniority || Py.str_in "senior" title in
  let b := Py.str_in "mid" seniority || Py.str_in "5" experience
           || Py.str_in "7" experience in
  let c := Py.str_in "director" title || Py.str_in "principal" title in
  (a = true ->
     seniority_block job score = (score + 0.20 * 0.8)%float)
  /\ (a = false -> b = true ->
     seniority_block job score = (score + 0.20 * 1.0)%float)
  /\ (a = false -> b = false -> c = true ->
     seniority_block job score = (score + 0.20 * 0.6)%float)
  /\ (a = false -> b = false -> c = false ->
     seniority_block job score = score)
  /\ (a = true
      \/ (a = false /\ b = true)
      \/ (a = false /\ b = false /\ c = true)
      \/ (a = false /\ b = false /\ c = false)).
Proof.
  cbv zeta.
  unfold seniority_block, senior_rule, mid_rule, director_rule, title_of,
    Weights.seniority_match.
  cbv zeta.
  destruct (Py.str_in "senior" (Py.lower (Py.get (job_seniority_level job) ""))
            || Py.str_in "senior" (Py.lower (Py.get (job_title job) "")));
    destruct (Py.str_in "mid" (Py.lower (Py.get (job_seniority_level job) ""))
              || Py.str_in "5" (Py.lower (Py.get (job_required_experience job) ""))
              || Py.str_in "7" (Py.lower (Py.get (job_required_experience job) "")));
    destruct (Py.str_in "director" (Py.lower (Py.get (job_title job) ""))
              || Py.str_in "principal" (Py.lower (Py.get (job_title job) "")));
    repeat split; intros; try discriminate; try reflexivity; tauto.
Qed.

(* ================================================================= *)
(** ** Connection finder *)

(** The loop of [find_connections] appends the reported form of exactly the
    records that score above zero, in table order. *)
Lemma collected_experiences (company_name text : string)
    (table : list (string * Experience)) (acc : list RelevantExperience) :
  fold_left (match_experience company_name text) table acc
  = acc ++ filter (fun r => 0 <? relevance_score r)
                  (map (spec_entry company_name text) table).
Proof.
  revert acc. induction table as [|[exp_key experience] table IH]; intro acc.
  - simpl. rewrite app_nil_r. reflexivity.
  - cbn [fold_left map filter]. rewrite IH. clear IH.
    unfold match_experience, spec_entry, spec_relevance_score, keyword_hits,
      company_match.
    cbn [fst snd relevance_score].
    set (hits := Py.count_if _ (relevance_keywords experience)).
    set (cm := Py.any _ (Py.get (companies experience) [])).
    destruct cm; destruct hits as [|hits]; cbn [Nat.ltb Nat.leb orb Nat.add];
      first [ rewrite <- app_assoc; reflexivity | reflexivity ].
Qed.

Lemma find_connections_refines_spec (self : PersonalContextManager)
    (company_name job_title job_description : string) :
  relevant_experiences
    (find_connections self company_name job_title job_description)
  = spec_find_connections self company_name job_title job_description.
Proof.
  unfold find_connections, spec_find_connections. cbv zeta.
  cbn [relevant_experiences].
  rewrite collected_experiences. cbn [app].
  rewrite slice_to_nonneg by lia. reflexivity.
Qed.

(** C7.  For every company name, job title and job description, with the
    job text being the lowercased title, description and company joined by
    single spaces: the reported records are the first three (at most) of
    the records that score above zero, ordered by decreasing score, records
    of equal score in table order; a record's score is its number of
    keywords found in the job text plus 2 when one of its companies occurs,
    case-insensitively, in the company name. *)
Theorem find_connections_top_three (self : PersonalContextManager)
    (company_name job_title job_description : string) :
  let text := Py.lower (job_title ++ " " ++ job_description ++ " " ++ company_name)%string in
  let scored := map (spec_entry company_name text) (experiences self) in
  let kept := filter (fun r => 0 <? relevance_score r) scored in
  let sorted := Py.sort_reverse relevance_score kept in
  let out := relevant_experiences
               (find_connections self company_name job_title job_description) in
  out = spec_find_connections self company_name job_title job_description
  /\ out = firstn 3 sorted
  /\ List.length out <= 3
  /\ Permutation kept sorted
  /\ descending relevance_score sorted
  /\ (forall k, filter (fun r => relevance_score r =? k) sorted
                = filter (fun r => relevance_score r =? k) kept)
  /\ (forall r, In r scored -> (In r kept <-> 0 < relevance_score r))
  /\ (forall r, In r out -> In r scored /\ 0 < relevance_score r).
Proof.
  cbv zeta.
  pose proof (find_connections_refines_spec self company_name job_title
                job_description) as Href.
  unfold spec_find_connections, job_text in Href. cbv zeta in Href.
  split; [apply find_connections_refines_spec|].
  split; [exact Href|].
  split; [rewrite Href; apply firstn_le_length|].
  split; [apply sort_reverse_perm|].
  split; [apply sort_reverse_descending|].
  split; [intro k; apply sort_reverse_stable|].
  split.
  - intros r Hr. rewrite filter_In, Nat.ltb_lt. tauto.
  - intros r Hr. rewrite Href in Hr.
    apply In_firstn in Hr. apply sort_reverse_In in Hr.
    apply filter_In in Hr. rewrite Nat.ltb_lt in Hr. exact Hr.
Qed.

(* ================================================================= *)
(** ** The end-to-end scenario *)

(** Reads the fields of a job that is written out in full. *)
Ltac project_job :=
  cbn [job_title job_company job_seniority_level job_required_experience
       job_description job_location job_workplace_type
       job_personal_connections set_personal_connections scenario_job
       titled_job Py.get].

(** Two of the technical keywords in a description already make the count
    reach two. *)
Lemma ai_count_two (desc : string) :
  Py.str_in "machine learning" desc = true ->
  Py.str_in "llm" desc = true ->
  (2 <=? ai_count desc) = true.
Proof.
  intros Hml Hllm.
  unfold ai_count, Py.count_if, ai_keywords.
  cbn [filter]. rewrite Hml, Hllm.
  repeat match goal with
         | |- context [if ?b then _ else _] => destruct b
         end; reflexivity.
Qed.

(** OpenAI is one of the companies of the [ai_transformation] record, so a
    posting by OpenAI always has a relevant experience. *)
Lemma openai_has_connections (job_title job_description : string) :
  relevant_experiences
    (find_connections default_context_manager "OpenAI" job_title job_description)
  <> [].
Proof.
  rewrite find_connections_refines_spec.
  unfold spec_find_connections. cbv zeta.
  set (text := job_text "OpenAI" job_title job_description).
  set (kept := filter _ _).
  assert (Hin : exists r, In r kept).
  { exists (spec_entry "OpenAI" text (nth 1 default_experiences ("", snd (nth 0 default_experiences ("", {| exp_description := ""; exp_metrics := ""; relevance_keywords := []; companies := None; talking_point := "" |}))))).
    apply filter_In. split.
    - apply in_map. cbn. right. left. reflexivity.
    - cbn [nth default_experiences snd spec_entry relevance_score].
      unfold spec_relevance_score.
      replace (Py.any _ _) with true by (vm_compute; reflexivity).
      apply Nat.ltb_lt. lia. }
  destruct Hin as [r Hr].
  apply (sort_reverse_In relevance_score) in Hr.
  destruct (Py.sort_reverse relevance_score kept) as [|x l]; [destruct Hr|].
  cbn. discriminate.
Qed.

(** C4, as the code has it.  For the scenario job, with any description
    whose lowercased text contains "machine learning" and "llm": the
    technical block adds the full 0.25 and the location block the full
    0.15; the title block brings the score from 0 to 0.25; the seniority
    block adds 0.20 x 0.8, because "senior" occurs in the title and the
    first tier wins (the second tier does not even match: the job has no
    required-experience field, the "5 years" being in the description);
    the connection block adds 0.15; the score is 0.96 and the priority
    HIGH. *)
Theorem scenario_scores (d : string)
    (Hml : Py.str_in "machine learning" (Py.lower d) = true)
    (Hllm : Py.str_in "llm" (Py.lower d) = true) :
  let job := scenario_job d in
  let processed := process_scraped_job default_context_manager job in
  (forall s, technical_block job s = (s + 0.25)%float)
  /\ (forall s, location_block job s = (s + 0.15)%float)
  /\ title_block job 0%float = 0.25%float
  /\ senior_rule job = true
  /\ mid_rule job = false
  /\ (forall s, seniority_block job s = (s + 0.20 * 0.8)%float)
  /\ (forall s, connection_block processed s = (s + 0.15)%float)
  /\ job_match_score processed = Some 0.96000000000000008%float
  /\ job_priority processed = Some HIGH.
Proof.
  cbv zeta.
  assert (Htech : forall s, technical_block (scenario_job d) s = (s + 0.25)%float).
  { intro s. unfold technical_block. project_job. cbv zeta.
    rewrite (ai_count_two _ Hml Hllm). reflexivity. }
  assert (Hloc : forall s, location_block (scenario_job d) s = (s + 0.15)%float).
  { intro s. unfold location_block. project_job. reflexivity. }
  assert (Htitle : title_block (scenario_job d) 0%float = 0.25%float).
  { unfold title_block, title_of. project_job. vm_compute. reflexivity. }
  assert (Hsen : senior_rule (scenario_job d) = true).
  { unfold senior_rule, title_of. project_job. vm_compute. reflexivity. }
  assert (Hmid : mid_rule (scenario_job d) = false).
  { unfold mid_rule. project_job. vm_compute. reflexivity. }
  assert (Hsb : forall s, seniority_block (scenario_job d) s = (s + 0.20 * 0.8)%float).
  { intro s. unfold seniority_block. rewrite Hsen. reflexivity. }
  assert (Hconn : forall c s, relevant_experiences c <> [] ->
            connection_block (set_personal_connections (scenario_job d) c) s
            = (s + 0.15)%float).
  { intros c s Hc. unfold connection_block. project_job. cbv zeta.
    destruct (relevant_experiences c); [contradiction|reflexivity]. }
  pose proof (openai_has_connections "Senior Product Manager, AI Platform" d) as Hne.
  repeat split; try assumption.
  - intro s. unfold process_scraped_job. cbv zeta.
    unfold connection_block, set_score_and_priority. project_job. cbv zeta.
    destruct (relevant_experiences _); [contradiction|reflexivity].
  - unfold process_scraped_job. cbv zeta. project_job.
    cbn [job_match_score set_score_and_priority]. f_equal.
    unfold calculate_match_score. cbv zeta.
    rewrite (Hconn _ _ Hne).
    change (location_block (set_personal_connections ?j ?c)) with (location_block j).
    change (technical_block (set_personal_connections ?j ?c)) with (technical_block j).
    change (seniority_block (set_personal_connections ?j ?c)) with (seniority_block j).
    change (title_block (set_personal_connections ?j ?c)) with (title_block j).
    rewrite Hloc, Htech, Hsb, Htitle. vm_compute. reflexivity.
  - unfold process_scraped_job. cbv zeta. project_job.
    cbn [job_priority set_score_and_priority]. f_equal.
    unfold calculate_match_score. cbv zeta.
    rewrite (Hconn _ _ Hne).
    change (location_block (set_personal_connections ?j ?c)) with (location_block j).
    change (technical_block (set_personal_connections ?j ?c)) with (technical_block j).
    change (seniority_block (set_personal_connections ?j ?c)) with (seniority_block j).
    change (title_block (set_personal_connections ?j ?c)) with (title_block j).
    rewrite Hloc, Htech, Hsb, Htitle. vm_compute. reflexivity.
Qed.

(** The scenario's own description meets the two conditions. *)
Lemma scenario_scores_witness :
  Py.str_in "machine learning" (Py.lower scenario_description) = true
  /\ Py.str_in "llm" (Py.lower scenario_description) = true
  /\ job_match_score
       (process_scraped_job default_context_manager
          (scenario_job scenario_description))
     = Some 0.96000000000000008%float
  /\ job_priority
       (process_scraped_job default_context_manager
          (scenario_job scenario_description)) = Some HIGH.
Proof.
  split; [vm_compute; reflexivity|].
  split; [vm_compute; reflexivity|].
  split; apply (scenario_scores scenario_description); vm_compute; reflexivity.
Defined.

(** C4, as stated, fails: on the scenario job the seniority block does not
    add 1.0 x 0.20 to the score the title block leaves. *)
Lemma scenario_seniority_is_not_mid_tier :
  seniority_block (scenario_job scenario_description) 0.25%float
  <> (0.25 + 0.20 * 1.0)%float.
Proof.
  intro H. apply (f_equal Prim2SF) in H. vm_compute in H. discriminate H.
Qed.

(* ================================================================= *)
(** ** Achievement selection *)

Lemma slice_to_map (A B : Type) (f : A -> B) (n : Z) (l : list A) :
  Py.slice_to n (map f l) = map f (Py.slice_to n l).
Proof.
  unfold Py.slice_to. rewrite length_map.
  destruct (0 <=? n)%Z; apply firstn_map.
Qed.

(** [select_achievements] returns a slice of the bank sorted by decreasing
    keyword score. *)
Lemma select_achievements_sorted_slice (self : ApplicationKitParser)
    (job_description : string) (count : Z) :
  select_achievements self job_description count
  = Py.slice_to count
      (Py.sort_reverse (achievement_score (Py.lower job_description))
         (Py.get (achievements_bank (senior_kit self)) [])).
Proof.
  unfold select_achievements.
  destruct (Py.get (achievements_bank (senior_kit self)) []) as [|a bank] eqn:E.
  - cbn [Py.sort_reverse]. unfold Py.slice_to.
    destruct (0 <=? count)%Z; rewrite firstn_nil; reflexivity.
  - cbv zeta.
    rewrite (fold_left_snoc_map
               (fun x => (achievement_score (Py.lower job_description) x, x))).
    cbn [app].
    rewrite sort_reverse_map, slice_to_map, map_map. cbn [snd fst].
    rewrite map_id. reflexivity.
Qed.

(** C5.  The selection is a function of the description, the bank and the
    count alone (two parser objects holding the same bank answer alike, so
    a repeated call answers as the first did), and it is a prefix of the
    bank sorted stably by decreasing score: the sorted list is a
    rearrangement of the bank in which scores never increase, achievements
    of equal score stand in bank order, and so within the output the
    achievements of any one score are the first ones of that score in the
    bank, in bank order. *)
Theorem select_achievements_stable (self : ApplicationKitParser)
    (job_description : string) (count : Z) :
  let bank := Py.get (achievements_bank (senior_kit self)) [] in
  let score := achievement_score (Py.lower job_description) in
  let sorted := Py.sort_reverse score bank in
  let out := select_achievements self job_description count in
  (forall other : ApplicationKitParser,
      Py.get (achievements_bank (senior_kit other)) [] = bank ->
      select_achievements other job_description count = out)
  /\ (exists m, out = firstn m sorted)
  /\ Permutation bank sorted
  /\ descending score sorted
  /\ descending score out
  /\ (forall k, filter (fun a => score a =? k) sorted
                = filter (fun a => score a =? k) bank)
  /\ (forall k, exists rest,
        filter (fun a => score a =? k) bank
        = filter (fun a => score a =? k) out ++ rest).
Proof.
  cbv zeta.
  rewrite select_achievements_sorted_slice.
  destruct (slice_to_prefix count
              (Py.sort_reverse (achievement_score (Py.lower job_description))
                 (Py.get (achievements_bank (senior_kit self)) []))) as [m Hm].
  split.
  { intros other Hbank. rewrite select_achievements_sorted_slice, Hbank.
    reflexivity. }
  split; [exists m; exact Hm|].
  split; [apply sort_reverse_perm|].
  split; [apply sort_reverse_descending|].
  split; [rewrite Hm; apply descending_firstn, sort_reverse_descending|].
  split; [intro k; apply sort_reverse_stable|].
  intro k. rewrite Hm.
  rewrite <- (sort_reverse_stable (achievement_score (Py.lower job_description)) k).
  apply filter_firstn_prefix.
Qed.

(** C6, as the code has it.  For a count that is not negative the selection
    has at most [count] items, each of them in the bank; an empty bank
    gives the empty list; a count that reaches the size of the bank gives
    all of the bank. *)
Theorem select_achievements_bounded (self : ApplicationKitParser)
    (job_description : string) (count : Z) (Hcount : (0 <= count)%Z) :
  let bank := Py.get (achievements_bank (senior_kit self)) [] in
  let out := select_achievements self job_description count in
  (Z.of_nat (List.length out) <= count)%Z
  /\ (forall a, In a out -> In a bank)
  /\ (bank = [] -> out = [])
  /\ ((Z.of_nat (List.length bank) <= count)%Z ->
      Permutation bank out /\ List.length out = List.length bank).
Proof.
  cbv zeta.
  rewrite select_achievements_sorted_slice, slice_to_nonneg by exact Hcount.
  set (sorted := Py.sort_reverse _ _).
  split.
  { pose proof (firstn_le_length (Z.to_nat count) sorted). lia. }
  split.
  { intros a Ha. apply In_firstn in Ha.
    apply (sort_reverse_In (achievement_score (Py.lower job_description))).
    exact Ha. }
  split.
  { intro Hb. subst sorted. rewrite Hb. cbn. apply firstn_nil. }
  intro Hlen.
  assert (Hall : firstn (Z.to_nat count) sorted = sorted).
  { apply firstn_all2. subst sorted. rewrite sort_reverse_length. lia. }
  rewrite Hall. subst sorted. split.
  - apply sort_reverse_perm.
  - apply sort_reverse_length.
Qed.

(** One item asked of the two-item sample bank. *)
Lemma select_achievements_bounded_witness :
  (0 <= 1)%Z
  /\ (Z.of_nat (List.length (select_achievements sample_parser "" 1)) <= 1)%Z.
Proof.
  split; [lia|].
  apply (@select_achievements_bounded sample_parser "" 1%Z). lia.
Defined.

(** C6, as stated, fails for a negative count: [selected[:-1]] drops the
    last item only, so one item comes back where at most -1 were allowed. *)
Lemma select_achievements_negative_count :
  select_achievements sample_parser "" (-1) = ["first"]
  /\ ~ (Z.of_nat (List.length (select_achievements sample_parser "" (-1))) <= -1)%Z.
Proof.
  split; [vm_compute; reflexivity|].
  vm_compute. intro H. apply H. reflexivity.
Qed.

(* ================================================================= *)
(** ** Kit variant and company override *)

(** C8.  The variant is computed from the title alone: it is "director"
    exactly when the lowercased title contains one of director, principal,
    staff, head of, vp, vice president, and "senior" in every other case;
    "Director of Product" gives "director" and "Senior Product Manager"
    gives "senior".  The renderer reads nothing but the job's title to
    choose it. *)
Theorem variant_from_title (title : string) :
  let indicated :=
    exists indicator,
      In indicator ["director"; "principal"; "staff"; "head of"; "vp";
                    "vice president"]
      /\ Py.str_in indicator (Py.lower title) = true in
  (get_variant_for_role title = "director" <-> indicated)
  /\ (get_variant_for_role title = "senior" <-> ~ indicated)
  /\ get_variant_for_role "Director of Product" = "director"
  /\ get_variant_for_role "Senior Product Manager" = "senior"
  /\ (forall job, Py.get (job_title job) "" = title ->
        variant_level job = get_variant_for_role title).
Proof.
  cbv zeta.
  assert (Hex : Py.any (fun indicator => Py.str_in indicator (Py.lower title))
                  director_indicators = true
                <-> exists indicator,
                      In indicator director_indicators
                      /\ Py.str_in indicator (Py.lower title) = true)
    by apply existsb_exists.
  assert (Hjobs : forall job, Py.get (job_title job) "" = title ->
                    variant_level job = get_variant_for_role title).
  { intros job Hjob. unfold variant_level. rewrite Hjob. reflexivity. }
  unfold director_indicators in Hex.
  split; [|split; [|split; [|split]]].
  - unfold get_variant_for_role, director_indicators.
    destruct (Py.any _ _) eqn:E.
    + split; [intros _; apply Hex; reflexivity | reflexivity].
    + split; [discriminate | intro H; apply Hex in H; discriminate].
  - unfold get_variant_for_role, director_indicators.
    destruct (Py.any _ _) eqn:E.
    + split; [discriminate | intro H; exfalso; apply H, Hex; reflexivity].
    + split; [intros _ H; apply Hex in H; discriminate | reflexivity].
  - vm_compute. reflexivity.
  - vm_compute. reflexivity.
  - exact Hjobs.
Qed.

(** The variant is one of the two names. *)
Lemma is_director_cases (job : Job) :
  (is_director job = true /\ variant_level job = "director")
  \/ (is_director job = false /\ variant_level job = "senior").
Proof.
  unfold is_director, variant_level, get_variant_for_role.
  destruct (Py.any _ _); [left | right]; split; reflexivity.
Qed.

(** The key chosen for a company is one of the four, occurs in the
    lowercased name, and no earlier key does. *)
Lemma company_key_sound (company k : string) :
  company_key company = Some k ->
  In k ["sparkplug"; "zillow"; "crowdstrike"; "nextera"]
  /\ Py.str_in k (Py.lower company) = true.
Proof.
  unfold company_key. cbv zeta.
  destruct (Py.str_in "sparkplug" (Py.lower company)) eqn:E1;
    [intro H; injection H as <-; split; [cbn; tauto | exact E1]|].
  destruct (Py.str_in "zillow" (Py.lower company)) eqn:E2;
    [intro H; injection H as <-; split; [cbn; tauto | exact E2]|].
  destruct (Py.str_in "crowdstrike" (Py.lower company)) eqn:E3;
    [intro H; injection H as <-; split; [cbn; tauto | exact E3]|].
  destruct (Py.str_in "nextera" (Py.lower company)) eqn:E4;
    [intro H; injection H as <-; split; [cbn; tauto | exact E4]|].
  discriminate.
Qed.

Lemma company_key_none (company : string) :
  company_key company = None <->
  (forall k, In k ["sparkplug"; "zillow"; "crowdstrike"; "nextera"] ->
             Py.str_in k (Py.lower company) = false).
Proof.
  unfold company_key. cbv zeta. split.
  - destruct (Py.str_in "sparkplug" (Py.lower company)) eqn:E1; [discriminate|].
    destruct (Py.str_in "zillow" (Py.lower company)) eqn:E2; [discriminate|].
    destruct (Py.str_in "crowdstrike" (Py.lower company)) eqn:E3; [discriminate|].
    destruct (Py.str_in "nextera" (Py.lower company)) eqn:E4; [discriminate|].
    intros _ k [<-|[<-|[<-|[<-|[]]]]]; assumption.
  - intro H.
    rewrite (H "sparkplug"), (H "zillow"), (H "crowdstrike"), (H "nextera");
      cbn; tauto.
Qed.

(** C9, as the code has it.  The override is looked up by the first of four
    fixed keys that occurs in the lowercased company name ("Zillow Group"
    selects "zillow"); no key, no override.  When an override is found and
    not empty, the resume carries its title and summary where the kit's
    would stand (the kit's serving for a field the override lacks); its top
    bullets open the signature outcomes, ahead of the kit's first five, when
    the senior variant is rendered, and are not used when the director
    variant is rendered.  Without an override every one of these lines is
    the kit's. *)
Theorem company_override (parser : ApplicationKitParser) (job : Job) :
  let company := Py.get (job_company job) "" in
  let k := kit parser job in
  let generic_title := Py.get (h_title (Py.get (header k) empty_header)) "" in
  let generic_summary := Py.get (summary k) "" in
  let tail := skill_lines parser job ++ experience_lines parser job
              ++ closing_lines parser job in
  let senior_outcomes := map bullet (firstn 5 (Py.get (signature_outcomes k) [])) in
  let director_outcomes :=
    ["**executive summary (what you get)**"]
    ++ map bullet (Py.get (executive_summary k) []) ++ [""]
    ++ ["**select portfolio outcomes**"]
    ++ map bullet (Py.get (portfolio_outcomes k) []) in
  company_key "Zillow Group" = Some "zillow"
  /\ get_company_variant parser "Zillow Group"
     = dict_get (Py.get (role_variants (senior_kit parser)) []) "zillow"
  /\ (forall key, company_key company = Some key ->
        In key ["sparkplug"; "zillow"; "crowdstrike"; "nextera"]
        /\ Py.str_in key (Py.lower company) = true
        /\ company_variant parser job
           = dict_get (Py.get (role_variants (senior_kit parser)) []) key)
  /\ ((forall key, In key ["sparkplug"; "zillow"; "crowdstrike"; "nextera"] ->
                   Py.str_in key (Py.lower company) = false) ->
        company_variant parser job = None)
  /\ (forall v, variant_present (company_variant parser job) = Some v ->
        let title := ("**" ++ Py.get (role v) generic_title ++ "**")%string in
        let summary := Py.get (v_summary v) generic_summary in
        (variant_level job = "senior" ->
           resume_lines parser job
           = header_lines parser job ++ [title; summary; ""]
             ++ ["**signature outcomes**"]
             ++ map bullet (Py.get (top_bullets v) [])
             ++ senior_outcomes ++ [""] ++ tail)
        /\ (variant_level job = "director" ->
           resume_lines parser job
           = header_lines parser job ++ [title; summary; ""]
             ++ director_outcomes ++ [""] ++ tail))
  /\ (variant_present (company_variant parser job) = None ->
        let title := ("**" ++ generic_title ++ "**")%string in
        (variant_level job = "senior" ->
           resume_lines parser job
           = header_lines parser job ++ [title; generic_summary; ""]
             ++ ["**signature outcomes**"] ++ senior_outcomes ++ [""] ++ tail)
        /\ (variant_level job = "director" ->
           resume_lines parser job
           = header_lines parser job ++ [title; generic_summary; ""]
             ++ director_outcomes ++ [""] ++ tail)).
Proof.
  cbv zeta.
  split; [vm_compute; reflexivity|].
  split; [reflexivity|].
  split.
  { intros key Hkey. destruct (company_key_sound _ Hkey) as [Hin Hocc].
    repeat split; try assumption.
    unfold company_variant, get_company_variant. rewrite Hkey. reflexivity. }
  split.
  { intro Hnone. apply company_key_none in Hnone.
    unfold company_variant, get_company_variant. rewrite Hnone. reflexivity. }
  split.
  - intros v Hv.
    unfold resume_lines, title_line, summary_lines, outcome_lines, kit_title.
    rewrite Hv.
    destruct (is_director_cases job) as [[Hd Hl]|[Hd Hl]]; rewrite Hd, Hl;
      split; intro H; try discriminate H;
      cbn [app]; rewrite <- ?app_assoc; reflexivity.
  - intros Hv.
    unfold resume_lines, title_line, summary_lines, outcome_lines, kit_title.
    rewrite Hv.
    destruct (is_director_cases job) as [[Hd Hl]|[Hd Hl]]; rewrite Hd, Hl;
      split; intro H; try discriminate H;
      cbn [app]; rewrite <- ?app_assoc; reflexivity.
Qed.

(** C9, as stated, fails for a job rendered with the director variant: the
    Zillow override is found, its title and summary are used, and its top
    bullet is nowhere in the resume. *)
Lemma director_resume_drops_top_bullets :
  let job := titled_job "Director of Product" "Zillow Group" in
  variant_present (company_variant sample_parser job) = Some sample_variant
  /\ nth_error (resume_lines sample_parser job) 3
     = Some "**senior product manager — zillow**"
  /\ nth_error (resume_lines sample_parser job) 4
     = Some "Summary written for Zillow"
  /\ ~ In (bullet "Zillow bullet") (resume_lines sample_parser job).
Proof.
  cbv zeta. repeat split; try (vm_compute; reflexivity).
  intro H. vm_compute in H.
  repeat (destruct H as [H|H]; [discriminate H|]). exact H.
Qed.

(* ================================================================= *)
(** ** Cover letter *)

(** C10.  [render_cover_letter] applies to the letter at most one of the
    three rewrites of the 90-day plan, chosen from the lowercased job
    description: the platform rewrite of the pilots clause when "platform"
    occurs, whatever else occurs; otherwise the data rewrite of the pilots
    clause when "data" occurs; otherwise the success-metrics rewrite when
    "revenue" or "growth" occurs; otherwise none.  A description that names
    all the keywords gets the platform rewrite alone: on the built-in
    template the pilots clause becomes the platform clause and the success
    metrics stay as they were. *)
Theorem cover_letter_single_rewrite (parser : ApplicationKitParser) (job : Job) :
  let d := Py.lower (Py.get (job_description job) "") in
  let letter := letter_with_intro parser job in
  let applied := plan_rewrites job in
  let out := render_cover_letter parser job in
  out = fold_left (fun l r => apply_rewrite r l) applied letter
  /\ List.length applied <= 1
  /\ (Py.str_in "platform" d = true ->
        applied = [PlatformRewrite]
        /\ out = Py.replace letter "1–2 high-leverage pilots"
                   "platform capabilities that enable multiple teams")
  /\ (Py.str_in "platform" d = false -> Py.str_in "data" d = true ->
        applied = [DataRewrite]
        /\ out = Py.replace letter "1–2 high-leverage pilots"
                   "data ingestion and quality pilots with measurable SLAs")
  /\ (Py.str_in "platform" d = false -> Py.str_in "data" d = false ->
      Py.str_in "revenue" d || Py.str_in "growth" d = true ->
        applied = [MetricsRewrite]
        /\ out = Py.replace letter "adoption, cycle time, quality"
                   "adoption, revenue impact, retention")
  /\ (Py.str_in "platform" d = false -> Py.str_in "data" d = false ->
      Py.str_in "revenue" d || Py.str_in "growth" d = false ->
        applied = [] /\ out = letter)
  /\ (Py.str_in "platform" d || Py.str_in "data" d
      || Py.str_in "revenue" d || Py.str_in "growth" d = true ->
        List.length applied = 1)
  /\ (let sent := render_cover_letter empty_parser keyword_rich_job in
      plan_rewrites keyword_rich_job = [PlatformRewrite]
      /\ Py.str_in "platform capabilities that enable multiple teams" sent = true
      /\ Py.str_in "1–2 high-leverage pilots" sent = false
      /\ Py.str_in "data ingestion and quality pilots" sent = false
      /\ Py.str_in "adoption, cycle time, quality" sent = true
      /\ Py.str_in "adoption, revenue impact, retention" sent = false).
Proof.
  cbv zeta.
  unfold render_cover_letter, plan_rewrites. cbv zeta.
  destruct (Py.str_in "platform" (Py.lower (Py.get (job_description job) ""))) eqn:Ep;
    [|destruct (Py.str_in "data" (Py.lower (Py.get (job_description job) ""))) eqn:Ed;
      [|destruct (Py.str_in "revenue" (Py.lower (Py.get (job_description job) ""))
                  || Py.str_in "growth" (Py.lower (Py.get (job_description job) ""))) eqn:Er]].
  all: cbn [fold_left apply_rewrite List.length orb].
  all: unfold platform_rewrite, data_rewrite, metrics_rewrite.
  all: repeat match goal with
              | |- _ /\ _ => split
              end.
  all: try reflexivity.
  all: try (intros; discriminate).
  all: try (intros; split; reflexivity).
  all: try lia.
  all: try (vm_compute; reflexivity).
  all: intros H; rewrite Er in H; discriminate H.
Qed.

(* ================================================================= *)
(** * Further properties *)

(** ** Substrings *)

Lemma prefix_app_r (a b x : string) :
  String.prefix (a ++ b) x = true -> Py.str_in b x = true.
Proof.
  revert x. induction a as [|c a IH]; intros x H.
  - change (String.prefix b x = true) in H.
    destruct x; cbn [Py.str_in]; rewrite H; reflexivity.
  - destruct x as [|c' x]; [discriminate H|].
    cbn [append String.prefix] in H.
    destruct (Ascii.ascii_dec c c'); [|discriminate H].
    cbn [Py.str_in]. rewrite (IH x H). apply orb_true_r.
Qed.

(** Where a text occurs, so does each of its endings. *)
Lemma str_in_app_r (a b x : string) :
  Py.str_in (a ++ b) x = true -> Py.str_in b x = true.
Proof.
  induction x as [|c x IH]; cbn [Py.str_in]; intro H.
  - rewrite orb_false_r in H. apply (prefix_app_r a b ""). exact H.
  - apply orb_true_iff in H. destruct H as [H|H].
    + apply (prefix_app_r a b (String c x)). exact H.
    + rewrite (IH H). apply orb_true_r.
Qed.

(* ================================================================= *)
(** ** More on the scorer *)

Ltac project_fields :=
  cbn [job_title job_company job_seniority_level job_required_experience
       job_description job_location job_workplace_type
       job_personal_connections set_personal_connections set_description].

(** X1.  The sum of the five blocks never exceeds 1.0, so [min(score, 1.0)]
    always returns the sum itself: the cap of [_calculate_match_score]
    changes no score. *)
Theorem match_score_never_clamped (job : Job) :
  let total :=
    connection_block job
      (location_block job
         (technical_block job
            (seniority_block job (title_block job 0%float)))) in
  (total <=? 1)%float = true /\ calculate_match_score job = total.
Proof.
  cbv zeta. split.
  - unfold_blocks. split_tests; vm_compute; reflexivity.
  - unfold_blocks. split_tests; vm_compute; reflexivity.
Qed.

(** X2.  With every other field of the job left as it is, a description in
    which more of the technical keywords occur never lowers the score. *)
Theorem match_score_monotone_in_keywords (job : Job) (d1 d2 : string)
    (Hcount : ai_count (Py.lower d1) <= ai_count (Py.lower d2)) :
  (calculate_match_score (set_description job (Some d1))
   <=? calculate_match_score (set_description job (Some d2)))%float = true.
Proof.
  unfold_blocks. unfold title_of, senior_rule, mid_rule, director_rule, title_of.
  project_fields.
  change (Py.get (Some d1) "") with d1. change (Py.get (Some d2) "") with d2.
  destruct (2 <=? ai_count (Py.lower d1)) eqn:A1;
    destruct (1 <=? ai_count (Py.lower d1)) eqn:B1;
    destruct (2 <=? ai_count (Py.lower d2)) eqn:A2;
    destruct (1 <=? ai_count (Py.lower d2)) eqn:B2;
    repeat match goal with
           | H : (_ <=? _) = true |- _ => apply Nat.leb_le in H
           | H : (_ <=? _) = false |- _ => apply Nat.leb_gt in H
           end;
    try (exfalso; lia);
    clear A1 B1 A2 B2 Hcount;
    split_tests; vm_compute; reflexivity.
Qed.

Lemma match_score_monotone_in_keywords_witness :
  (calculate_match_score
     (set_description (scenario_job "") (Some "we use nlp"))
   <=? calculate_match_score
         (set_description (scenario_job "") (Some "we use nlp and llm")))%float
  = true.
Proof.
  apply (match_score_monotone_in_keywords (scenario_job "")).
  vm_compute. lia.
Defined.

(** X3.  A job whose title contains "senior" is credited the title bonus
    and the first seniority tier and no other: its score is at least
    0.25 x 0.3 + 0.20 x 0.8 and never above 0.96, whatever its other
    fields say. *)
Theorem senior_title_score_range (job : Job)
    (Hsenior : Py.str_in "senior" (Py.lower (Py.get (job_title job) "")) = true) :
  (forall s, seniority_block job s = (s + 0.20 * 0.8)%float)
  /\ (0 + 0.25 * 0.3 + 0.20 * 0.8 <=? calculate_match_score job)%float = true
  /\ (calculate_match_score job <=? 0.96000000000000008)%float = true.
Proof.
  assert (Hrule : senior_rule job = true).
  { unfold senior_rule, title_of. cbv zeta. rewrite Hsenior. apply orb_true_r. }
  split; [intro s; unfold seniority_block; rewrite Hrule; reflexivity|].
  split.
  - unfold_blocks. rewrite Hrule. unfold title_of.
    cbn [Py.any existsb]. rewrite Hsenior. cbn [orb].
    split_tests; vm_compute; reflexivity.
  - unfold_blocks. rewrite Hrule. unfold title_of.
    cbn [Py.any existsb]. rewrite Hsenior. cbn [orb].
    split_tests; vm_compute; reflexivity.
Qed.

Lemma senior_title_score_range_witness :
  (calculate_match_score (scenario_job scenario_description)
   <=? 0.96000000000000008)%float = true.
Proof.
  apply (senior_title_score_range (scenario_job scenario_description)).
  vm_compute. reflexivity.
Defined.

(** X4.  A job whose description contains none of the technical keywords
    and which has no relevant experience attached scores below 0.70 and is
    never given priority HIGH. *)
Theorem no_keyword_no_connection_never_high (job : Job)
    (Hkeywords : ai_count (Py.lower (Py.get (job_description job) "")) = 0)
    (Hconnections :
       relevant_experiences
         (Py.get (job_personal_connections job) {| relevant_experiences := [] |})
       = []) :
  (calculate_match_score job <? 0.70)%float = true
  /\ (priority_of (calculate_match_score job) = MEDIUM
      \/ priority_of (calculate_match_score job) = LOW).
Proof.
  unfold_blocks.
  rewrite Hkeywords, Hconnections. cbn [Nat.leb].
  split.
  - split_tests; vm_compute; reflexivity.
  - split_tests; vm_compute;
      first [left; reflexivity | right; reflexivity].
Qed.

Lemma no_keyword_no_connection_never_high_witness :
  (calculate_match_score (titled_job "Staff Product Manager" "Acme") <? 0.70)%float
  = true.
Proof.
  apply (no_keyword_no_connection_never_high
           (titled_job "Staff Product Manager" "Acme"));
    vm_compute; reflexivity.
Defined.

(** X5.  "genai" alone earns the full technical weight: the keyword "ai"
    occurs inside it, so a description that mentions "genai" always counts
    at least two keywords. *)
Theorem genai_counts_twice (job : Job)
    (Hgenai : Py.str_in "genai" (Py.lower (Py.get (job_description job) "")) = true) :
  2 <= ai_count (Py.lower (Py.get (job_description job) ""))
  /\ (forall s, technical_block job s = (s + 0.25)%float).
Proof.
  assert (Hai : Py.str_in "ai" (Py.lower (Py.get (job_description job) "")) = true)
    by (apply (str_in_app_r "gen" "ai"); exact Hgenai).
  assert (Hcount : (2 <=? ai_count (Py.lower (Py.get (job_description job) ""))) = true).
  { unfold ai_count, Py.count_if, ai_keywords. cbn [filter].
    rewrite Hai, Hgenai.
    repeat match goal with
           | |- context [if ?b then _ else _] => destruct b
           end; reflexivity. }
  split; [apply Nat.leb_le; exact Hcount|].
  intro s. unfold technical_block. cbv zeta. rewrite Hcount. reflexivity.
Qed.

Lemma genai_counts_twice_witness :
  2 <= ai_count (Py.lower "Own our GenAI roadmap").
Proof.
  apply (genai_counts_twice (set_description (scenario_job "")
                               (Some "Own our GenAI roadmap"))).
  vm_compute. reflexivity.
Defined.

(** X6.  A title that the scorer's third seniority tier recognises
    ("director" or "principal") is always rendered from the director kit:
    the two components agree on what a director-level title is. *)
Theorem director_tier_uses_director_kit (parser : ApplicationKitParser) (job : Job)
    (Htier : director_rule job = true) :
  variant_level job = "director" /\ kit parser job = director_kit parser.
Proof.
  assert (Hv : variant_level job = "director").
  { unfold director_rule, title_of in Htier.
    unfold variant_level, get_variant_for_role, director_indicators.
    cbv zeta. cbn [Py.any existsb].
    apply orb_true_iff in Htier. destruct Htier as [H|H]; rewrite H.
    - reflexivity.
    - rewrite orb_true_r. reflexivity. }
  split; [exact Hv|].
  unfold kit, is_director. rewrite Hv. reflexivity.
Qed.

Lemma director_tier_uses_director_kit_witness :
  variant_level (titled_job "Principal Product Manager" "Acme") = "director".
Proof.
  apply (director_tier_uses_director_kit sample_parser
           (titled_job "Principal Product Manager" "Acme")).
  vm_compute. reflexivity.
Defined.

(* ================================================================= *)
(** ** More on the stable sort and on selection *)

(** A list that is already in decreasing order is left as it is. *)
Lemma sort_reverse_fixed (A : Type) (key : A -> nat) (l : list A) :
  descending key l -> Py.sort_reverse key l = l.
Proof.
  unfold descending. induction l as [|x l IH]; intro Hs; [reflexivity|].
  inversion Hs as [|? ? Hl Hx]; subst.
  cbn [Py.sort_reverse]. rewrite (IH Hl).
  destruct l as [|y l]; [reflexivity|].
  cbn [Py.insert_desc].
  inversion Hx as [|? ? Hy _]; subst.
  replace (key x <? key y) with false
    by (symmetry; apply Nat.ltb_ge; exact Hy).
  reflexivity.
Qed.

(** In a decreasing list no later element outranks an earlier one. *)
Lemma descending_app (A : Type) (key : A -> nat) (l1 l2 : list A) :
  descending key (l1 ++ l2) ->
  forall a b, In a l1 -> In b l2 -> key b <= key a.
Proof.
  unfold descending. induction l1 as [|x l1 IH]; intros Hs a b Ha Hb.
  - destruct Ha.
  - cbn [app] in Hs. inversion Hs as [|? ? Hl Hx]; subst.
    destruct Ha as [<-|Ha].
    + rewrite Forall_forall in Hx. apply Hx. apply in_or_app. right. exact Hb.
    + apply (IH Hl a b Ha Hb).
Qed.

Lemma descending_head_max (A : Type) (key : A -> nat) (x : A) (l : list A) :
  descending key (x :: l) -> forall b, In b (x :: l) -> key b <= key x.
Proof.
  unfold descending. intros Hs b [<-|Hb]; [lia|].
  inversion Hs as [|? ? _ Hx]; subst.
  rewrite Forall_forall in Hx. apply Hx, Hb.
Qed.

Lemma descending_of_constant (A : Type) (key : A -> nat) (l : list A) :
  (forall a, key a = 0) -> descending key l.
Proof.
  intro H. unfold descending. induction l as [|x l IH]; constructor.
  - exact IH.
  - apply Forall_forall. intros b _. rewrite (H b), (H x). lia.
Qed.

(** X7.  Selecting again from what was selected changes nothing: for a
    count that is not negative, a parser whose bank is the output of
    [select_achievements] returns that same list, in the same order, for
    the same description and count. *)
Theorem select_achievements_idempotent (self other : ApplicationKitParser)
    (job_description : string) (count : Z)
    (Hcount : (0 <= count)%Z)
    (Hbank : Py.get (achievements_bank (senior_kit other)) []
             = select_achievements self job_description count) :
  select_achievements other job_description count
  = select_achievements self job_description count.
Proof.
  rewrite (select_achievements_sorted_slice other), Hbank.
  rewrite (select_achievements_sorted_slice self).
  rewrite !slice_to_nonneg by exact Hcount.
  set (score := achievement_score (Py.lower job_description)).
  set (sorted := Py.sort_reverse score
                   (Py.get (achievements_bank (senior_kit self)) [])).
  rewrite (@sort_reverse_fixed _ score (firstn (Z.to_nat count) sorted))
    by (apply descending_firstn, sort_reverse_descending).
  apply firstn_all2. apply firstn_le_length.
Qed.

Lemma select_achievements_idempotent_witness :
  select_achievements (parser_with_bank ["first"]) "" 1
  = select_achievements sample_parser "" 1.
Proof.
  apply (@select_achievements_idempotent sample_parser
           (parser_with_bank ["first"]) "" 1%Z).
  - lia.
  - vm_compute. reflexivity.
Defined.

(** A loop whose every step leaves the accumulator alone returns it. *)
Lemma fold_left_unchanged (A B : Type) (f : A -> B -> A) (l : list B) (acc : A) :
  (forall item, In item l -> forall a, f a item = a) ->
  fold_left f l acc = acc.
Proof.
  revert acc. induction l as [|x l IH]; intros acc H; cbn [fold_left].
  - reflexivity.
  - rewrite (H x (or_introl eq_refl)). apply IH.
    intros item Hitem. apply H. right. exact Hitem.
Qed.

(** X8.  When the description names none of the six categories of the
    keyword table, every achievement scores zero and the selection is the
    bank cut to the count, in bank order. *)
Theorem select_achievements_without_keywords (self : ApplicationKitParser)
    (job_description : string) (count : Z)
    (Hnone : forall keyword, In keyword (map fst keyword_mapping) ->
                             Py.str_in keyword (Py.lower job_description) = false) :
  (forall achievement,
      achievement_score (Py.lower job_description) achievement = 0)
  /\ select_achievements self job_description count
     = Py.slice_to count (Py.get (achievements_bank (senior_kit self)) []).
Proof.
  assert (Hzero : forall achievement,
             achievement_score (Py.lower job_description) achievement = 0).
  { intro achievement. unfold achievement_score.
    apply fold_left_unchanged. intros [keyword indicators] Hin score.
    rewrite (Hnone keyword); [reflexivity|].
    apply (in_map fst) in Hin. exact Hin. }
  split; [exact Hzero|].
  rewrite select_achievements_sorted_slice.
  rewrite sort_reverse_fixed by (apply descending_of_constant, Hzero).
  reflexivity.
Qed.

Lemma select_achievements_without_keywords_witness :
  select_achievements sample_parser "Lead our roadmap" 1 = ["first"].
Proof.
  apply (select_achievements_without_keywords sample_parser "Lead our roadmap" 1).
  intros keyword Hin. cbn in Hin.
  repeat (destruct Hin as [<-|Hin]; [vm_compute; reflexivity|]).
  destruct Hin.
Defined.

(** X9.  The selection takes the best: the achievements left out can be
    listed so that, together with the selection, they make up the bank,
    and none of them scores higher than any achievement selected. *)
Theorem select_achievements_takes_the_best (self : ApplicationKitParser)
    (job_description : string) (count : Z) :
  let bank := Py.get (achievements_bank (senior_kit self)) [] in
  let score := achievement_score (Py.lower job_description) in
  let out := select_achievements self job_description count in
  exists rest,
    Permutation bank (out ++ rest)
    /\ (forall a b, In a out -> In b rest -> score b <= score a).
Proof.
  cbv zeta. rewrite select_achievements_sorted_slice.
  set (score := achievement_score (Py.lower job_description)).
  set (bank := Py.get (achievements_bank (senior_kit self)) []).
  destruct (slice_to_prefix count (Py.sort_reverse score bank)) as [m ->].
  exists (skipn m (Py.sort_reverse score bank)).
  split.
  - rewrite firstn_skipn. apply sort_reverse_perm.
  - apply descending_app. rewrite firstn_skipn.
    apply sort_reverse_descending.
Qed.

(* ================================================================= *)
(** ** More on the connection finder *)

Lemma filter_nil_iff (A : Type) (p : A -> bool) (l : list A) :
  filter p l = [] <-> (forall a, In a l -> p a = false).
Proof.
  induction l as [|x l IH]; cbn [filter].
  - split; [intros _ a [] | reflexivity].
  - destruct (p x) eqn:E; split.
    + discriminate.
    + intro H. rewrite (H x (or_introl eq_refl)) in E. discriminate E.
    + intros H a [<-|Ha]; [exact E | apply IH; assumption].
    + intro H. apply IH. intros a Ha. apply H. right. exact Ha.
Qed.

Lemma sort_reverse_nil_iff (A : Type) (key : A -> nat) (l : list A) :
  Py.sort_reverse key l = [] <-> l = [].
Proof.
  split; intro H.
  - apply length_zero_iff_nil. rewrite <- (sort_reverse_length key), H.
    reflexivity.
  - rewrite H. reflexivity.
Qed.

(** No experience is reported exactly when no record scores. *)
Lemma find_connections_empty_iff (self : PersonalContextManager)
    (company_name job_title job_description : string) :
  relevant_experiences
    (find_connections self company_name job_title job_description) = []
  <-> (forall item, In item (experiences self) ->
         spec_relevance_score company_name
           (job_text company_name job_title job_description) (snd item) = 0).
Proof.
  rewrite find_connections_refines_spec.
  unfold spec_find_connections. cbv zeta.
  set (text := job_text company_name job_title job_description).
  set (scored := map (spec_entry company_name text) (experiences self)).
  set (kept := filter (fun r => 0 <? relevance_score r) scored).
  assert (Hfirst : firstn 3 (Py.sort_reverse relevance_score kept) = []
                   <-> kept = []).
  { rewrite <- (sort_reverse_nil_iff relevance_score kept).
    destruct (Py.sort_reverse relevance_score kept); cbn; split;
      intro H; try reflexivity; discriminate H. }
  rewrite Hfirst. unfold kept. rewrite filter_nil_iff. split.
  - intros H item Hitem.
    specialize (H (spec_entry company_name text item)
                  (in_map _ _ _ Hitem)).
    apply Nat.ltb_ge in H. cbn [spec_entry relevance_score] in H. lia.
  - intros H r Hr. apply in_map_iff in Hr. destruct Hr as [item [<- Hitem]].
    cbn [spec_entry relevance_score]. rewrite (H item Hitem). reflexivity.
Qed.

(** The first experience reported outranks every record of the table. *)
Lemma find_connections_head_max (self : PersonalContextManager)
    (company_name job_title job_description : string)
    (top : RelevantExperience) (rest : list RelevantExperience) :
  relevant_experiences
    (find_connections self company_name job_title job_description)
  = top :: rest ->
  forall item, In item (experiences self) ->
               spec_relevance_score company_name
                 (job_text company_name job_title job_description) (snd item)
               <= relevance_score top.
Proof.
  rewrite find_connections_refines_spec.
  unfold spec_find_connections. cbv zeta.
  set (text := job_text company_name job_title job_description).
  set (scored := map (spec_entry company_name text) (experiences self)).
  set (kept := filter (fun r => 0 <? relevance_score r) scored).
  intros Hout item Hitem.
  pose proof (sort_reverse_descending relevance_score kept) as Hdesc.
  destruct (Py.sort_reverse relevance_score kept) as [|x sorted] eqn:Es;
    [discriminate Hout|].
  cbn [firstn] in Hout. injection Hout as <- _.
  destruct (0 <? spec_relevance_score company_name text (snd item)) eqn:E.
  - apply (@descending_head_max _ relevance_score x sorted Hdesc
             (spec_entry company_name text item)).
    rewrite <- Es. apply sort_reverse_In. apply filter_In. split.
    + apply in_map. exact Hitem.
    + exact E.
  - apply Nat.ltb_ge in E. lia.
Qed.

(** X10.  [find_connections] reports no experience exactly when no record
    of the table scores above zero; and when it reports some, the first
    one scores at least as much as every record of the table. *)
Theorem find_connections_best_first (self : PersonalContextManager)
    (company_name job_title job_description : string) :
  let text := job_text company_name job_title job_description in
  let out := relevant_experiences
               (find_connections self company_name job_title job_description) in
  (out = [] <->
   forall item, In item (experiences self) ->
                spec_relevance_score company_name text (snd item) = 0)
  /\ (forall top rest, out = top :: rest ->
      forall item, In item (experiences self) ->
                   spec_relevance_score company_name text (snd item)
                   <= relevance_score top).
Proof.
  cbv zeta. split.
  - apply find_connections_empty_iff.
  - intros top rest Hout. apply (find_connections_head_max _ _ _ _ Hout).
Qed.

(** X11.  [process_scraped_job] credits the personal-connection weight
    exactly to the jobs for which some record of the table scores above
    zero: for them the connection block adds 0.15, for all others it
    leaves the score as it is. *)
Theorem connection_weight_credited (cm : PersonalContextManager) (job : Job) :
  let company := Py.get (job_company job) "" in
  let text := job_text company (Py.get (job_title job) "")
                (Py.get (job_description job) "") in
  let processed := process_scraped_job cm job in
  ((exists item, In item (experiences cm)
                 /\ 0 < spec_relevance_score company text (snd item)) ->
     forall s, connection_block processed s = (s + 0.15)%float)
  /\ ((forall item, In item (experiences cm) ->
                    spec_relevance_score company text (snd item) = 0) ->
     forall s, connection_block processed s = s).
Proof.
  cbv zeta.
  pose proof (find_connections_empty_iff cm (Py.get (job_company job) "")
                (Py.get (job_title job) "") (Py.get (job_description job) ""))
    as Hempty.
  unfold process_scraped_job, connection_block. cbv zeta.
  cbn [job_personal_connections set_score_and_priority
       set_personal_connections Py.get].
  split.
  - intros [item [Hitem Hpos]] s.
    destruct (relevant_experiences _) as [|r out]; [|reflexivity].
    assert (H0 := proj1 Hempty eq_refl item Hitem). lia.
  - intros Hzero s. rewrite (proj2 Hempty Hzero). reflexivity.
Qed.

(* ================================================================= *)
(** ** Job discovery engine *)

Lemma leb_of_ltb (x y : float) :
  (x <? y)%float = true -> (x <=? y)%float = true.
Proof.
  rewrite leb_spec, ltb_spec. unfold SFleb, SFltb.
  destruct (SFcompare (Prim2SF x) (Prim2SF y)) as [[| |]|];
    intro H; try discriminate H; reflexivity.
Qed.

(** Two numbers that are both at least some bound compare one way or the
    other. *)
Lemma leb_of_not_ltb (lo x y : float) :
  (lo <=? x)%float = true -> (lo <=? y)%float = true ->
  (x <? y)%float = false -> (y <=? x)%float = true.
Proof.
  rewrite !leb_spec, ltb_spec. unfold SFleb, SFltb.
  intros Hx Hy Hlt.
  destruct (SFcompare (Prim2SF x) (Prim2SF y)) as [c|] eqn:E.
  - apply SFcompare_antisym in E. rewrite E.
    destruct c; simpl; congruence.
  - exfalso.
    destruct (Prim2SF x), (Prim2SF y), (Prim2SF lo); simpl in *; congruence.
Qed.

Section FloatSortFacts.
Variable A : Type.
Variable key : A -> float.
Variable lo : float.

(** No element is followed by one with a larger key. *)
Definition descending_float (l : list A) : Prop :=
  Sorted (fun a b => (key b <=? key a)%float = true) l.

Definition keys_above (l : list A) : Prop :=
  Forall (fun a => (lo <=? key a)%float = true) l.

Lemma insert_desc_float_perm (x : A) (l : list A) :
  Permutation (x :: l) (insert_desc_float key x l).
Proof.
  induction l as [|y l IH]; cbn [insert_desc_float].
  - apply Permutation_refl.
  - destruct (key x <? key y)%float.
    + apply perm_trans with (y :: x :: l);
        [apply perm_swap | apply perm_skip, IH].
    + apply Permutation_refl.
Qed.

Lemma sort_reverse_float_perm (l : list A) :
  Permutation l (sort_reverse_float key l).
Proof.
  induction l as [|x l IH]; cbn [sort_reverse_float].
  - apply perm_nil.
  - apply perm_trans with (x :: sort_reverse_float key l);
      [apply perm_skip, IH | apply insert_desc_float_perm].
Qed.

Lemma insert_desc_float_descending (x : A) (l : list A) :
  (lo <=? key x)%float = true -> keys_above l ->
  descending_float l -> descending_float (insert_desc_float key x l).
Proof.
  unfold descending_float, keys_above. intros Hx.
  induction l as [|y l IH]; intros Hl Hs; cbn [insert_desc_float].
  - constructor; constructor.
  - inversion Hl as [|? ? Hy Hl']; subst.
    inversion Hs as [|? ? Hs' Hhd]; subst.
    destruct (key x <? key y)%float eqn:E.
    + constructor; [apply IH; assumption|].
      destruct l as [|z l]; cbn [insert_desc_float].
      * constructor. apply leb_of_ltb, E.
      * destruct (key x <? key z)%float.
        -- inversion Hhd; subst. constructor. assumption.
        -- constructor. apply leb_of_ltb, E.
    + constructor; [exact Hs|].
      constructor. apply (leb_of_not_ltb Hx Hy E).
Qed.

Lemma sort_reverse_float_descending (l : list A) :
  keys_above l -> descending_float (sort_reverse_float key l).
Proof.
  unfold keys_above. induction l as [|x l IH]; intro Hl;
    cbn [sort_reverse_float].
  - constructor.
  - inversion Hl as [|? ? Hx Hl']; subst.
    apply insert_desc_float_descending; [exact Hx | | apply IH, Hl'].
    unfold keys_above.
    apply Forall_forall. intros a Ha.
    apply (Permutation_in _ (Permutation_sym (sort_reverse_float_perm l))) in Ha.
    rewrite Forall_forall in Hl'. apply Hl', Ha.
Qed.
End FloatSortFacts.

(** The loop of [score_and_filter_jobs] appends, in input order, the
    rescored form of exactly the jobs it keeps. *)
Lemma discovery_collected (self : JobDiscoveryEngine) (jobs acc : list Job) :
  fold_left (discovery_step self) jobs acc
  = acc ++ map (discovery_rescore self) (filter (discovery_keeps self) jobs).
Proof.
  revert acc. induction jobs as [|job jobs IH]; intro acc.
  - cbn. rewrite app_nil_r. reflexivity.
  - cbn [fold_left filter]. rewrite IH. clear IH.
    unfold discovery_step, discovery_keeps, discovery_rescore. cbv zeta.
    destruct (field_truthy (job_title job)); cbn [negb orb andb];
      [|reflexivity].
    destruct (field_truthy (job_company job)); cbn [negb orb andb];
      [|reflexivity].
    destruct (discovery_priority (discovery_score self job)) eqn:E;
      cbn [map]; rewrite ?E, <- ?app_assoc; reflexivity.
Qed.

(** Whatever the tests of the score say, a job that is not LOW has a capped
    score between 0.5 and 1, and the capped score falls in the same
    priority band as the score before the cap. *)
Lemma discovery_score_bands (self : JobDiscoveryEngine) (job : Job) :
  let raw := discovery_score self job in
  let capped := Py.min raw 1.0%float in
  priority_of capped = discovery_priority raw
  /\ (capped <=? 1)%float = true
  /\ (discovery_priority raw <> LOW -> (0.5 <=? capped)%float = true).
Proof.
  cbv zeta. unfold discovery_score. cbv zeta.
  repeat match goal with
         | |- context [if ?b then _ else _] => destruct b
         end;
    vm_compute; (split; [reflexivity|split; [reflexivity|]]);
    intro H; first [reflexivity | exfalso; apply H; reflexivity].
Qed.

(** X12.  Every job [score_and_filter_jobs] returns is one of the jobs
    given, with a title and a company that are not empty, carrying
    priority HIGH or MEDIUM and a stored score between 0.5 and 1; and
    although the priority was decided before the score was capped at 1.0,
    it is the priority the stored score falls in. *)
Theorem discovered_jobs_are_matches (self : JobDiscoveryEngine)
    (jobs : list Job) (j : Job)
    (Hj : In j (score_and_filter_jobs self jobs)) :
  exists original,
    In original jobs
    /\ field_truthy (job_title original) = true
    /\ field_truthy (job_company original) = true
    /\ j = discovery_rescore self original
    /\ (job_priority j = Some HIGH \/ job_priority j = Some MEDIUM)
    /\ (0.5 <=? stored_score j)%float = true
    /\ (stored_score j <=? 1)%float = true
    /\ job_priority j = Some (priority_of (stored_score j)).
Proof.
  unfold score_and_filter_jobs in Hj. cbv zeta in Hj.
  apply (Permutation_in _ (Permutation_sym (sort_reverse_float_perm _ _))) in Hj.
  rewrite discovery_collected in Hj. cbn [app] in Hj.
  apply in_map_iff in Hj. destruct Hj as [original [<- Hin]].
  apply filter_In in Hin. destruct Hin as [Hin Hkeep].
  unfold discovery_keeps in Hkeep.
  apply andb_true_iff in Hkeep. destruct Hkeep as [Hkeep Hprio].
  apply andb_true_iff in Hkeep. destruct Hkeep as [Htitle Hcompany].
  destruct (discovery_score_bands self original) as [Hband [Hcap Hlow]].
  exists original.
  unfold discovery_rescore, stored_score.
  cbn [job_priority job_match_score set_score_and_priority Py.get].
  repeat split; try assumption.
  - destruct (discovery_priority (discovery_score self original));
      [left | right | discriminate Hprio]; reflexivity.
  - apply Hlow. intro H. rewrite H in Hprio. discriminate Hprio.
  - rewrite Hband. reflexivity.
Qed.

Lemma discovered_jobs_are_matches_witness :
  exists original,
    In original [titled_job "Senior AI Product Manager" "OpenAI"]
    /\ field_truthy (job_title original) = true.
Proof.
  destruct (@discovered_jobs_are_matches default_discovery_engine
              [titled_job "Senior AI Product Manager" "OpenAI"]
              (discovery_rescore default_discovery_engine
                 (titled_job "Senior AI Product Manager" "OpenAI")))
    as [original [Hin [Htitle _]]].
  - vm_compute. left. reflexivity.
  - exists original. split; assumption.
Defined.

(** X13.  [score_and_filter_jobs] returns the jobs it keeps, each once,
    best first: its result is a rearrangement of the kept jobs in which no
    job is followed by one with a higher stored score. *)
Theorem discovered_jobs_best_first (self : JobDiscoveryEngine) (jobs : list Job) :
  let kept := map (discovery_rescore self) (filter (discovery_keeps self) jobs) in
  let out := score_and_filter_jobs self jobs in
  Permutation kept out
  /\ Sorted (fun a b => (stored_score b <=? stored_score a)%float = true) out.
Proof.
  cbv zeta. unfold score_and_filter_jobs. cbv zeta.
  rewrite discovery_collected. cbn [app].
  split; [apply sort_reverse_float_perm|].
  apply (sort_reverse_float_descending (lo := 0.5%float)).
  unfold keys_above. apply Forall_forall. intros j Hj.
  apply in_map_iff in Hj. destruct Hj as [original [<- Hin]].
  apply filter_In in Hin. destruct Hin as [_ Hkeep].
  unfold discovery_keeps in Hkeep.
  apply andb_true_iff in Hkeep. destruct Hkeep as [_ Hprio].
  destruct (discovery_score_bands self original) as [_ [_ Hlow]].
  unfold discovery_rescore, stored_score.
  cbn [job_match_score set_score_and_priority Py.get].
  apply Hlow. intro H. rewrite H in Hprio. discriminate Hprio.
Qed.

(* ================================================================= *)
(** ** The rest of the personal context manager *)

Lemma lower_ascii_not_L (c : ascii) : Py.lower_ascii c <> "L"%char.
Proof.
  destruct c as [[] [] [] [] [] [] [] []]; vm_compute; discriminate.
Qed.

(** Lowercased text contains no capital letter, so not "LLM". *)
Lemma lower_has_no_LLM (s : string) : Py.str_in "LLM" (Py.lower s) = false.
Proof.
  induction s as [|c s IH]; [reflexivity|].
  cbn [Py.lower Py.str_in String.prefix]. rewrite IH.
  destruct (Ascii.ascii_dec "L" (Py.lower_ascii c)) as [E|E].
  - exfalso. apply (lower_ascii_not_L c). symmetry. exact E.
  - reflexivity.
Qed.

(** X14.  The WeatherThreads project is the only one that can be reported,
    and it is reported exactly when the job text contains "personalization"
    or "rules engine".  Its third technology, "LLM", never counts: it is
    compared in capitals against text that has been lowercased, so a
    posting about LLMs alone gets no project. *)
Theorem projects_ignore_llm
    (str_of_experience : RelevantExperience -> string)
    (self : PersonalContextManager)
    (company_name job_title job_description : string) :
  let text := job_text company_name job_title job_description in
  let projects :=
    fc_applicable_projects
      (find_connections_full str_of_experience self company_name job_title
         job_description) in
  Py.str_in "LLM" text = false
  /\ List.length projects <= 1
  /\ (forall p, In p projects -> sp_name p = "WeatherThreads")
  /\ (projects <> [] <->
      Py.str_in "personalization" text = true
      \/ Py.str_in "rules engine" text = true).
Proof.
  cbv zeta. unfold find_connections_full. cbv zeta.
  cbn [fc_applicable_projects].
  assert (Hllm : Py.str_in "LLM"
                   (job_text company_name job_title job_description) = false)
    by (unfold job_text; apply lower_has_no_LLM).
  split; [exact Hllm|].
  unfold applicable_projects_for, side_projects.
  cbn [fold_left snd sp_technologies Py.get Py.any existsb app].
  rewrite Hllm. cbn [orb].
  destruct (Py.str_in "personalization"
              (job_text company_name job_title job_description));
    destruct (Py.str_in "rules engine"
                (job_text company_name job_title job_description));
    cbn [orb List.length];
    (split; [lia|]);
    (split; [intros p Hp; repeat (destruct Hp as [<-|Hp]; [reflexivity|]);
             destruct Hp|]);
    split; intro H; try discriminate; try tauto;
    try (exfalso; apply H; reflexivity);
    destruct H as [H|H]; discriminate H.
Qed.

(** X15.  [_select_conversation_starters] returns at most two starters, and
    none of them still carries the placeholder of the AI starter: every
    branch that selects that starter fills it in. *)
Theorem conversation_starters_are_filled (text : string) :
  let starters := select_conversation_starters text in
  List.length starters <= 2
  /\ (forall s, In s starters -> Py.str_in "{specific_ai_tech}" s = false).
Proof.
  cbv zeta. unfold select_conversation_starters. cbv zeta.
  repeat match goal with
         | |- context [if ?b then _ else _] => destruct b
         end;
    cbn [app firstn List.length];
    (split; [lia|]);
    intros s Hs;
    repeat (destruct Hs as [<-|Hs]; [vm_compute; reflexivity|]);
    destruct Hs.
Qed.

(** X16.  [_generate_what_i_bring] always returns between one and three
    lines and the leadership line is always among them; with two or more
    relevant experiences the result is their two lines followed by the
    leadership line, so the AI-expertise line is never shown then. *)
Theorem what_i_bring_shape
    (str_of_experience : RelevantExperience -> string)
    (relevant : list RelevantExperience) :
  let out := generate_what_i_bring str_of_experience relevant in
  1 <= List.length out <= 3
  /\ In leadership_line out
  /\ (2 <= List.length relevant ->
      out = map (fun exp => (re_metrics exp ++ " from "
                             ++ Py.replace (re_type exp) "_" " ")%string)
                (firstn 2 relevant)
            ++ [leadership_line]).
Proof.
  cbv zeta. unfold generate_what_i_bring. cbv zeta.
  destruct relevant as [|e1 [|e2 rest]];
    destruct (Py.any _ _); cbn [firstn map app List.length];
    (split; [lia|]); (split; [cbn; tauto|]);
    intro H; cbn [List.length] in H; first [lia | reflexivity].
Qed.

Lemma prefix_app (a b : string) : String.prefix a (a ++ b) = true.
Proof.
  induction a as [|c a IH]; cbn [append String.prefix].
  - destruct b; reflexivity.
  - destruct (Ascii.ascii_dec c c) as [_|E]; [exact IH | contradiction].
Qed.

Lemma prefix_refl (a : string) : String.prefix a a = true.
Proof.
  induction a as [|c a IH]; cbn [String.prefix]; [reflexivity|].
  destruct (Ascii.ascii_dec c c) as [_|E]; [exact IH | contradiction].
Qed.

(** X17.  [_generate_why_interested] never returns the empty text; it opens
    with the experience reason whenever there is a relevant experience; it
    gives at most two reasons, so that with an experience and a shared
    value the project reason is dropped; and it falls back on the sentence
    about the role and the company when nothing was found. *)
Theorem why_interested_shape (company role : string)
    (relevant : list RelevantExperience) (shared : list PersonalValue)
    (projects : list SideProject) :
  let out := generate_why_interested company role relevant shared projects in
  let experience_reason exp :=
    ("My experience with " ++ Py.replace (re_type exp) "_" " "
     ++ " directly applies")%string in
  let value_reason v :=
    ("Your commitment to " ++ before_comma (pv_description v)
     ++ " resonates with me")%string in
  out <> ""
  /\ (forall exp rest, relevant = exp :: rest ->
        String.prefix (experience_reason exp) out = true)
  /\ (forall exp rest v values,
        relevant = exp :: rest -> shared = v :: values ->
        out = (experience_reason exp ++ " and " ++ value_reason v)%string)
  /\ (relevant = [] -> shared = [] -> projects = [] ->
        out = ("The opportunity to shape " ++ role ++ " at " ++ company
               ++ " aligns perfectly with my experience")%string).
Proof.
  cbv zeta. unfold generate_why_interested. cbv zeta.
  destruct relevant as [|exp rest]; destruct shared as [|v values];
    destruct projects as [|p ps]; cbn [app firstn Py.join].
  all: split; [cbn [append]; discriminate|].
  all: split;
    [intros exp' rest' H; try discriminate H; injection H as <- _;
     first [apply prefix_refl | apply prefix_app]|].
  all: split;
    [intros exp' rest' v' values' H1 H2;
     try discriminate H1; try discriminate H2;
     injection H1 as <- _; injection H2 as <- _; reflexivity|].
  all: intros H1 H2 H3;
    try discriminate H1; try discriminate H2; try discriminate H3;
    reflexivity.
Qed.

Lemma why_interested_opens_with_experience (company role : string)
    (exp : RelevantExperience) (rest : list RelevantExperience)
    (shared : list PersonalValue) (projects : list SideProject) :
  String.prefix
    ("My experience with " ++ Py.replace (re_type exp) "_" " "
     ++ " directly applies")
    (generate_why_interested company role (exp :: rest) shared projects)
  = true.
Proof.
  unfold generate_why_interested. cbv zeta.
  destruct shared as [|v values]; destruct projects as [|p ps];
    cbn [app firstn Py.join]; first [apply prefix_refl | apply prefix_app].
Qed.

(** X18.  The narrative fields of [find_connections] are drawn from the
    best-scoring record: the unique angle is empty exactly when no
    experience is reported, and otherwise both the unique angle and the
    opening of the why-interested statement quote the first reported
    experience, which no record of the table outscores. *)
Theorem narrative_follows_best_record
    (str_of_experience : RelevantExperience -> string)
    (self : PersonalContextManager)
    (company_name job_title job_description : string) :
  let text := job_text company_name job_title job_description in
  let full := find_connections_full str_of_experience self company_name
                job_title job_description in
  (fc_unique_angle full = "" <-> fc_relevant_experiences full = [])
  /\ (forall top rest, fc_relevant_experiences full = top :: rest ->
        fc_unique_angle full
        = ("Unlike typical PMs, I've actually "
           ++ Py.lower (re_description top))%string
        /\ String.prefix
             ("My experience with " ++ Py.replace (re_type top) "_" " "
              ++ " directly applies") (fc_why_interested full) = true
        /\ (forall item, In item (experiences self) ->
              spec_relevance_score company_name text (snd item)
              <= relevance_score top)).
Proof.
  cbv zeta. unfold find_connections_full. cbv zeta.
  cbn [fc_unique_angle fc_relevant_experiences fc_why_interested].
  pose proof (@find_connections_head_max self company_name job_title
                job_description) as Hmax.
  destruct (relevant_experiences
              (find_connections self company_name job_title job_description))
    as [|x out].
  - split; [split; reflexivity|]. intros top rest H. discriminate H.
  - split.
    + split; intro H; [cbn [append] in H|]; discriminate H.
    + intros top rest H. injection H as <- <-.
      split; [reflexivity|].
      split; [apply why_interested_opens_with_experience|].
      apply (Hmax x out eq_refl).
Qed.

(* ================================================================= *)
(** ** Company intelligence engine *)

Lemma category_events_cons (category : string) (a : Article)
    (articles : list Article) :
  category_events category (a :: articles)
  = (if article_matches (Py.get (dict_get news_categories category) []) a
     then [event_of a] else [])
    ++ category_events category articles.
Proof.
  unfold category_events. cbn [filter].
  destruct (article_matches _ a); reflexivity.
Qed.

(** What one article adds to the six lists. *)
Lemma categorize_article_step (a : Article)
    (ke si ch lc fe pl : list Event) :
  categorize_article (insights_of ke si ch lc fe pl) a
  = insights_of
      (ke ++ key_events_of a)
      (si ++ category_events "strategic_initiatives" [a])
      (ch ++ category_events "challenges" [a])
      (lc ++ category_events "leadership_changes" [a])
      (fe ++ category_events "financial_events" [a])
      (pl ++ category_events "product_launches" [a]).
Proof.
  rewrite !category_events_cons.
  unfold categorize_article, key_events_of, category_events, news_categories.
  cbn [fold_left flat_map fst snd dict_get String.eqb Ascii.eqb Bool.eqb
       Py.get filter map].
  repeat match goal with
         | |- context [article_matches ?ks a] =>
             destruct (article_matches ks a)
         end;
    destruct (highly_credible a);
    cbn [andb app]; rewrite ?app_nil_r;
    unfold insights_of, dict_append;
    cbn [map fst snd String.eqb Ascii.eqb Bool.eqb app];
    rewrite <- ?app_assoc; reflexivity.
Qed.

Lemma categorize_articles (articles : list Article)
    (ke si ch lc fe pl : list Event) :
  fold_left categorize_article articles (insights_of ke si ch lc fe pl)
  = insights_of
      (ke ++ flat_map key_events_of articles)
      (si ++ category_events "strategic_initiatives" articles)
      (ch ++ category_events "challenges" articles)
      (lc ++ category_events "leadership_changes" articles)
      (fe ++ category_events "financial_events" articles)
      (pl ++ category_events "product_launches" articles).
Proof.
  revert ke si ch lc fe pl.
  induction articles as [|a articles IH]; intros ke si ch lc fe pl.
  - cbn [fold_left flat_map]. unfold category_events. cbn [filter map].
    rewrite !app_nil_r. reflexivity.
  - cbn [fold_left flat_map]. rewrite categorize_article_step, IH.
    rewrite (category_events_cons "strategic_initiatives" a articles),
      (category_events_cons "challenges" a articles),
      (category_events_cons "leadership_changes" a articles),
      (category_events_cons "financial_events" a articles),
      (category_events_cons "product_launches" a articles).
    rewrite !(category_events_cons _ a []).
    unfold category_events at 1 2 3 4 5. cbn [filter map].
    rewrite !app_nil_r, <- !app_assoc. reflexivity.
Qed.

(** X19.  [_analyze_news_content] files under each category the events of
    the articles whose title or description contains one of the category's
    keywords, in article order, and keeps the first three; the key events
    hold one entry for each pair of a highly credible article and a
    category it matches (so one article can appear there several times),
    again cut to three.  No list is longer than three. *)
Theorem analyze_news_content_lists (articles : list Article) :
  analyze_news_content articles
  = insights_of
      (firstn 3 (flat_map key_events_of articles))
      (firstn 3 (category_events "strategic_initiatives" articles))
      (firstn 3 (category_events "challenges" articles))
      (firstn 3 (category_events "leadership_changes" articles))
      (firstn 3 (category_events "financial_events" articles))
      (firstn 3 (category_events "product_launches" articles))
  /\ (forall category events,
         In (category, events) (analyze_news_content articles) ->
         List.length events <= 3).
Proof.
  assert (Heq : analyze_news_content articles
                = insights_of
                    (firstn 3 (flat_map key_events_of articles))
                    (firstn 3 (category_events "strategic_initiatives" articles))
                    (firstn 3 (category_events "challenges" articles))
                    (firstn 3 (category_events "leadership_changes" articles))
                    (firstn 3 (category_events "financial_events" articles))
                    (firstn 3 (category_events "product_launches" articles))).
  { unfold analyze_news_content. cbv zeta.
    rewrite categorize_articles. cbn [app].
    unfold insights_of. cbn [map fst snd]. reflexivity. }
  split; [exact Heq|].
  intros category events Hin. rewrite Heq in Hin.
  unfold insights_of in Hin. cbn [In] in Hin.
  repeat (destruct Hin as [Hin|Hin];
          [apply (f_equal snd) in Hin; cbn [snd] in Hin; rewrite <- Hin;
           apply firstn_le_length|]).
  destruct Hin.
Qed.

(** X20.  [_generate_talking_points] returns at most five points, and
    when the research has news of all five kinds they are exactly the five
    points drawn from the news: the point tailored to the job title is
    then always cut off. *)
Theorem talking_points_cap (event_text : Event -> string)
    (financial_events product_launches strategic_initiatives challenges
     leadership_changes : list Event) (job_title : option string) :
  let out := generate_talking_points event_text financial_events
               product_launches strategic_initiatives challenges
               leadership_changes job_title in
  List.length out <= 5
  /\ (forall f fs p ps s ss c cs l ls,
        financial_events = f :: fs -> product_launches = p :: ps ->
        strategic_initiatives = s :: ss -> challenges = c :: cs ->
        leadership_changes = l :: ls ->
        out = [financial_point f; launch_point event_text p;
               initiative_point event_text s; challenge_point event_text c;
               leadership_point l])
  /\ (financial_events = [] -> product_launches = [] ->
      strategic_initiatives = [] -> challenges = [] ->
      leadership_changes = [] -> field_truthy job_title = false -> out = []).
Proof.
  cbv zeta. split; [apply firstn_le_length|].
  unfold generate_talking_points. cbv zeta. split.
  - intros f fs p ps s ss c cs l ls -> -> -> -> ->.
    cbn [first_point app].
    repeat match goal with
           | |- context [if ?b then _ else _] => destruct b
           end; reflexivity.
  - intros -> -> -> -> -> ->. reflexivity.
Qed.

(** X21.  [_assess_company_momentum] sorts every research into exactly
    one of four classes by its counts of positive news (financial events,
    product launches, strategic initiatives) and of challenges: strong
    growth when the positive news outnumber twice the challenges, steady
    growth when they outnumber the challenges but not twice, facing
    challenges when the challenges outnumber them, stable when the two
    counts are equal, in particular when there is no news at all. *)
Theorem momentum_classes
    (financial_events product_launches strategic_initiatives challenges
     : list Event) :
  let positive := List.length financial_events + List.length product_launches
                  + List.length strategic_initiatives in
  let negative := List.length challenges in
  let momentum := assess_company_momentum financial_events product_launches
                    strategic_initiatives challenges in
  (momentum = "strong_growth" <-> 2 * negative < positive)
  /\ (momentum = "steady_growth" <-> negative < positive <= 2 * negative)
  /\ (momentum = "facing_challenges" <-> positive < negative)
  /\ (momentum = "stable" <-> positive = negative)
  /\ assess_company_momentum [] [] [] [] = "stable".
Proof.
  cbv zeta. unfold assess_company_momentum. cbv zeta.
  set (positive := List.length financial_events + List.length product_launches
                   + List.length strategic_initiatives).
  set (negative := List.length challenges).
  destruct (negative * 2 <? positive) eqn:E1;
    [|destruct (negative <? positive) eqn:E2;
      [|destruct (positive <? negative) eqn:E3]];
    rewrite ?Nat.ltb_lt, ?Nat.ltb_ge in *;
    repeat split; intros; try discriminate; try reflexivity; try lia.
Qed.

(* ================================================================= *)
(** ** Description parsing *)

(** X22.  A description that mentions an MBA is reported as asking for a
    Bachelor's degree: "ba" occurs inside "mba" and the Bachelor tests come
    first, so the "mba" test of the Master's branch never decides.  The
    Master's answer is given only for "master" or "ms", and only when none
    of "bachelor", "bs", "ba" occurs. *)
Theorem mba_reads_as_bachelor (description : string) :
  let desc_lower := Py.lower description in
  (Py.str_in "mba" desc_lower = true ->
     parsed_education description = Some "Bachelor's degree")
  /\ (parsed_education description = Some "Master's degree" ->
      (Py.str_in "master" desc_lower = true \/ Py.str_in "ms" desc_lower = true)
      /\ Py.str_in "bachelor" desc_lower = false
      /\ Py.str_in "bs" desc_lower = false
      /\ Py.str_in "ba" desc_lower = false).
Proof.
  cbv zeta. unfold parsed_education. cbv zeta.
  destruct (Py.str_in "ba" (Py.lower description)) eqn:Eba.
  - rewrite !orb_true_r. split; [reflexivity | discriminate].
  - assert (Hmba : Py.str_in "mba" (Py.lower description) = false).
    { destruct (Py.str_in "mba" (Py.lower description)) eqn:E; [|reflexivity].
      apply (str_in_app_r "m" "ba") in E. congruence. }
    rewrite Hmba. split; [discriminate|].
    destruct (Py.str_in "bachelor" (Py.lower description));
      destruct (Py.str_in "bs" (Py.lower description));
      cbn [orb]; try discriminate.
    destruct (Py.str_in "master" (Py.lower description));
      destruct (Py.str_in "ms" (Py.lower description));
      cbn [orb]; intro H; repeat split; try tauto.
    destruct (Py.str_in "phd" (Py.lower description)
              || Py.str_in "doctorate" (Py.lower description));
      discriminate H.
Qed.

(* ================================================================= *)
(** ** More on the renderer *)

Lemma lower_ascii_idempotent (c : ascii) :
  Py.lower_ascii (Py.lower_ascii c) = Py.lower_ascii c.
Proof.
  destruct c as [[] [] [] [] [] [] [] []]; vm_compute; reflexivity.
Qed.

Lemma lower_idempotent (s : string) : Py.lower (Py.lower s) = Py.lower s.
Proof.
  induction s as [|c s IH]; cbn [Py.lower]; [reflexivity|].
  rewrite lower_ascii_idempotent, IH. reflexivity.
Qed.

(** X23.  The achievements that [extract_template_variables] reports are
    the first five of the six that [render_resume] lists under the current
    role: both come from the same ranking of the bank, the resume's from
    the lowercased description and the variables' from the description as
    it is. *)
Theorem template_variables_match_resume (parser : ApplicationKitParser)
    (job_data : Job) :
  let description := Py.get (job_description job_data) "" in
  tv_selected_achievements (extract_template_variables parser job_data)
  = firstn 5 (select_achievements parser (Py.lower description) 6)
  /\ tv_variant_level (extract_template_variables parser job_data)
     = variant_level job_data
  /\ (forall exp,
        Py.str_in "lovingly" (Py.lower (ke_company exp)) = true ->
        exists heading,
          experience_entry_lines parser job_data exp
          = [heading]
            ++ map bullet (select_achievements parser (Py.lower description) 6)
            ++ [""]).
Proof.
  cbv zeta. unfold extract_template_variables. cbv zeta.
  cbn [tv_selected_achievements tv_variant_level].
  split; [|split; [reflexivity|]].
  - rewrite !select_achievements_sorted_slice, lower_idempotent.
    rewrite !slice_to_nonneg by lia.
    rewrite firstn_firstn. reflexivity.
  - intros exp Hexp. unfold experience_entry_lines. cbv zeta.
    rewrite Hexp. eexists. reflexivity.
Qed.

(** X24.  Every experience entry of the resume is a heading, then at most
    six bullets, then an empty line: the first four bullets of the entry,
    or, for the entry whose company contains "lovingly", achievements taken
    from the bank. *)
Theorem experience_entry_shape (parser : ApplicationKitParser)
    (job_data : Job) (exp : KitExperience) :
  exists heading bullets,
    experience_entry_lines parser job_data exp
    = heading :: map bullet bullets ++ [""]
    /\ List.length bullets <= 6
    /\ (Py.str_in "lovingly" (Py.lower (ke_company exp)) = false ->
        bullets = firstn 4 (ke_bullets exp))
    /\ (Py.str_in "lovingly" (Py.lower (ke_company exp)) = true ->
        forall b, In b bullets ->
                  In b (Py.get (achievements_bank (senior_kit parser)) [])).
Proof.
  unfold experience_entry_lines. cbv zeta.
  destruct (Py.str_in "lovingly" (Py.lower (ke_company exp))).
  - eexists. eexists. split; [reflexivity|].
    rewrite select_achievements_sorted_slice, slice_to_nonneg by lia.
    split; [apply firstn_le_length|].
    split; [discriminate|].
    intros _ b Hb. apply In_firstn in Hb.
    apply sort_reverse_In in Hb. exact Hb.
  - eexists. eexists. split; [reflexivity|].
    split.
    + pose proof (firstn_le_length 4 (ke_bullets exp)). lia.
    + split; [reflexivity | discriminate].
Qed.

(** A text in which [old] does not occur is left alone by [replace]. *)
Lemma replace_absent (s old new : string) :
  Py.str_in old s = false -> Py.replace s old new = s.
Proof.
  unfold Py.replace. induction s as [|c s IH]; intro H; [reflexivity|].
  cbn [Py.str_in] in H. apply orb_false_iff in H. destruct H as [Hp Hs].
  cbn [Py.replace_from]. rewrite Hp, (IH Hs). reflexivity.
Qed.

(** X25.  When the letter contains neither the pilots clause nor the
    success-metrics clause (a kit template worded differently), the
    customisation of the 90-day plan changes nothing, whatever the job
    description says. *)
Theorem cover_letter_unchanged_without_clauses (parser : ApplicationKitParser)
    (job_data : Job)
    (Hpilots : Py.str_in "1–2 high-leverage pilots"
                 (letter_with_intro parser job_data) = false)
    (Hmetrics : Py.str_in "adoption, cycle time, quality"
                  (letter_with_intro parser job_data) = false) :
  render_cover_letter parser job_data = letter_with_intro parser job_data.
Proof.
  unfold render_cover_letter. cbv zeta.
  repeat match goal with
         | |- context [if ?b then _ else _] => destruct b
         end;
    first [ reflexivity
          | apply replace_absent; assumption ].
Qed.

Lemma cover_letter_unchanged_without_clauses_witness :
  render_cover_letter (parser_with_template "Dear team at [Company], hello.")
    keyword_rich_job
  = "Dear team at Acme, hello.".
Proof.
  rewrite (cover_letter_unchanged_without_clauses
             (parser_with_template "Dear team at [Company], hello.")
             keyword_rich_job);
    vm_compute; reflexivity.
Defined.
